(** * GatewaySwap: the swap connector of the gateway

    A shallow embedding of [hummingbot/connector/gateway/gateway_swap.py].

    The class is an adapter between the trading interface (buy, sell, quote)
    and the remote gateway.  Its methods are modelled as computations of a
    state-and-exception monad [M]:

    - the state holds the attributes of [self] the methods read or write and
      the trace of the calls the methods make to the outside (the gateway
      client, the base class [GatewayBase], the logger, the event loop);
    - a Python exception is a [Raised] outcome, [try]/[except] is
      [try_except];
    - an awaited call, or a call whose value is used, is answered by the
      environment [Env]: a value or an exception; the calls to the gateway
      client and to [create_market_order_id] are recorded in the trace and
      their answers may depend on the calls made so far;
    - a call made for its effect only (the logger, [start_tracking_order],
      [_handle_operation_failure], [safe_ensure_future]) is recorded in the
      trace and returns [None].

    [get_quote_price] is the coroutine function as written in the class body;
    the [async_ttl_cache] decorator that wraps it lives in
    [hummingbot.core.utils], outside this module: [cached_get_quote_price]
    is the method under the decorator, with what the cache holds taken as a
    parameter. *)

From stdpp Require Import gmap strings list fin_maps.
From Stdlib Require Import Ascii.

(** ** Python values *)

Module Py.

(** The exception classes the development names.  The first four derive
    from [BaseException] only (since Python 3.8 for [CancelledError]); the
    others derive from [Exception]. *)
Inductive exn_class : Type :=
| CancelledError
| KeyboardInterrupt
| SystemExit
| GeneratorExit
| ValueError
| TypeError
| AttributeError
| KeyError
| InvalidOperation
| RuntimeError
| ConnectionError.

Record exn : Type := Exn { exn_cls : exn_class; exn_msg : string }.

(** [isinstance(e, asyncio.CancelledError)] *)
Definition is_CancelledError (e : exn) : bool :=
  match exn_cls e with CancelledError => true | _ => false end.

(** [isinstance(e, Exception)] *)
Definition is_Exception (e : exn) : bool :=
  match exn_cls e with
  | CancelledError | KeyboardInterrupt | SystemExit | GeneratorExit => false
  | _ => true
  end.

(** What evaluating an expression or a call gives. *)
Inductive outcome (A : Type) : Type :=
| Returned (a : A)
| Raised (e : exn).
Global Arguments Returned {A} a.
Global Arguments Raised {A} e.

(** The outcome of [f(x)] for a total [f] and the outcome of [x]. *)
Definition outcome_map {A B} (f : A -> B) (o : outcome A) : outcome B :=
  match o with
  | Returned a => Returned (f a)
  | Raised e => Raised e
  end.

(** [s.split(sep)] for a separator of one character: the pieces of [s]
    between the occurrences of [sep], in order. *)
Fixpoint split (sep : ascii) (s : string) : list string :=
  match s with
  | EmptyString => [EmptyString]
  | String c r =>
      if Ascii.eqb c sep then EmptyString :: split sep r
      else match split sep r with
           | [] => [String c EmptyString]
           | piece :: pieces => String c piece :: pieces
           end
  end.

(** [a, b = parts] *)
Definition unpack2 (parts : list string) : outcome (string * string) :=
  match parts with
  | [a; b] => Returned (a, b)
  | [] | [_] =>
      Raised (Exn ValueError "not enough values to unpack (expected 2)")
  | _ => Raised (Exn ValueError "too many values to unpack (expected 2)")
  end.

(** [c in s] for a character [c] *)
Fixpoint contains (c : ascii) (s : string) : bool :=
  match s with
  | EmptyString => false
  | String d r => Ascii.eqb d c || contains c r
  end.

End Py.
Export Py.

(** The types and conversions of the Python runtime the module relies on:
    [decimal.Decimal], [float], the values of type [Any] found in a gateway
    response, and the [OrderType] enumeration that [buy] and [sell] receive
    and ignore. *)
Class PyRuntime : Type := {
  Decimal : Type;
  pyfloat : Type;
  pyobj : Type;
  OrderType : Type;
  (** [str(x)] *)
  py_str : pyobj -> string;
  (** [Decimal(s)], which raises on a string that is not a number *)
  Decimal_of_str : string -> outcome Decimal;
  (** [float(d)] *)
  float : Decimal -> outcome pyfloat;
}.

(** The two members of [TradeType] the module refers to. *)
Inductive TradeType : Type := BUY | SELL.

(** [side.name] *)
Definition name (side : TradeType) : string :=
  match side with BUY => "BUY" | SELL => "SELL" end.

(** [ConnectorType]: the two members the module tests for, and any other. *)
Inductive ConnectorType : Type := CLMM | AMM | OtherConnectorType.

(** [connector_type in (ConnectorType.CLMM, ConnectorType.AMM)] *)
Definition in_CLMM_AMM (connector_type : ConnectorType) : bool :=
  match connector_type with CLMM | AMM => true | OtherConnectorType => false end.

(** Objects are known by their identity. *)
Definition obj : Type := N.

Section GatewaySwap.

Context {rt : PyRuntime}.

(** A value of a request dictionary: the module stores strings and floats. *)
Inductive param : Type :=
| PStr (s : string)
| PFloat (f : pyfloat).

(** ** The trace *)

(** The records the module hands to its logger, with the values its
    f-strings interpolate. *)
Inductive log_record : Type :=
| LogUnableToGetPrice (info : pyobj)
| LogMissingPrice (keys : gset string)
| LogErrorGettingQuotePrice
    (trading_pair : string) (side : TradeType) (amount : Decimal) (e : exn)
| LogSwapOrderSubmitted (order_id : string).

(** A coroutine object: a call of [_create_order] that has not run yet. *)
Inductive coroutine : Type :=
| CreateOrder (trade_type : TradeType) (order_id trading_pair : string)
    (amount price : Decimal).

Inductive event : Type :=
| EvLog (r : log_record)
| EvGetGatewayInstance
| EvConnectorRequest (gateway : obj) (method connector endpoint : string)
    (payload : gmap string param)
| EvExecuteTransaction (gateway : obj) (chain network connector method : string)
    (params : gmap string param) (order_id : string)
| EvCreateMarketOrderId (side : TradeType) (trading_pair : string)
| EvStartTrackingOrder (order_id trading_pair : string) (trade_type : TradeType)
    (price amount : Decimal)
| EvHandleOperationFailure (order_id trading_pair operation_name : string)
    (error : exn)
| EvEnsureFuture (c : coroutine).

(** ** The state *)

(** The attributes of [self] the module uses. *)
Record GatewaySwap : Type := {
  connector_name : string;
  network : string;
  chain : string;
  address : string;
  _tx_handler : option obj;
}.

Record World : Type := {
  self : GatewaySwap;
  trace : list event;
}.

(** ** The environment *)

(** The answers of the code outside the module: a value or an exception.
    An answer that may change from one call to the next takes the trace at
    the time of the call.

    - [get_connector_type]: the function of [gateway.common_types];
    - [gateway_instance]: what [self._get_gateway_instance()] returns, the
      gateway client, an object;
    - [connector_response]: what awaiting [connector_request] on the client
      gives, a dictionary;
    - [transaction_result]: what awaiting [execute_transaction] gives;
    - [quantize_order_amount], [quantize_order_price]: the methods of the
      base class;
    - [market_order_id]: what [self.create_market_order_id] returns. *)
Record Env : Type := {
  get_connector_type : string -> outcome ConnectorType;
  gateway_instance : list event -> outcome obj;
  connector_response :
    list event -> obj -> string -> string -> string -> gmap string param ->
    outcome (gmap string pyobj);
  transaction_result :
    list event -> obj -> string -> string -> string -> string ->
    gmap string param -> string -> outcome unit;
  quantize_order_amount : string -> Decimal -> outcome Decimal;
  quantize_order_price : string -> Decimal -> outcome Decimal;
  market_order_id : list event -> TradeType -> string -> outcome string;
}.

Variable env : Env.

(** ** The monad *)

Definition M (A : Type) : Type := World -> outcome A * World.

Definition ret {A} (a : A) : M A := fun w => (Returned a, w).

Definition raise {A} (e : exn) : M A := fun w => (Raised e, w).

Definition bind {A B} (m : M A) (k : A -> M B) : M B :=
  fun w =>
    match m w with
    | (Returned a, w') => k a w'
    | (Raised e, w') => (Raised e, w')
    end.

(** [try: body / except ... as e: handler e] *)
Definition try_except {A} (body : M A) (handler : exn -> M A) : M A :=
  fun w =>
    match body w with
    | (Raised e, w') => handler e w'
    | r => r
    end.

(** The value or the exception of a computation that touches no state. *)
Definition lift {A} (o : outcome A) : M A := fun w => (o, w).

Definition get_self : M GatewaySwap := fun w => (Returned (self w), w).

Definition log_call (ev : event) (w : World) : World :=
  {| self := self w; trace := trace w ++ [ev] |}.

Definition emit (ev : event) : M unit := fun w => (Returned tt, log_call ev w).

(** A call answered by the environment: the call is recorded, the answer
    is the one the environment gives after the calls made before. *)
Definition ask {A} (ev : event) (answer : list event -> outcome A) : M A :=
  fun w => (answer (trace w), log_call ev w).

#[export] Instance M_ret : MRet M := @ret.
#[export] Instance M_bind : MBind M := fun A B k m => bind m k.

(** ** The calls to the outside *)

(** [self.logger().info(...)] and [self.logger().network(...)] *)
Definition logger (r : log_record) : M unit := emit (EvLog r).

(** [self._get_gateway_instance()] *)
Definition _get_gateway_instance : M obj :=
  ask EvGetGatewayInstance (gateway_instance env).

(** [await gateway.connector_request(method, connector, endpoint, payload)] *)
Definition connector_request (gateway : obj) (method connector endpoint : string)
    (payload : gmap string param) : M (gmap string pyobj) :=
  ask (EvConnectorRequest gateway method connector endpoint payload)
      (fun t => connector_response env t gateway method connector endpoint payload).

(** [await handler.execute_transaction(chain=..., network=..., connector=...,
    method=..., params=..., order_id=..., gateway_connector=self)] *)
Definition execute_transaction (gateway : obj)
    (chain network connector method : string) (params : gmap string param)
    (order_id : string) : M unit :=
  ask (EvExecuteTransaction gateway chain network connector method params order_id)
      (fun t => transaction_result env t gateway chain network connector method
                  params order_id).

(** [self.create_market_order_id(side, trading_pair)] *)
Definition create_market_order_id (side : TradeType) (trading_pair : string)
    : M string :=
  ask (EvCreateMarketOrderId side trading_pair)
      (fun t => market_order_id env t side trading_pair).

(** [self.start_tracking_order(order_id=..., trading_pair=..., trade_type=...,
    price=..., amount=...)] *)
Definition start_tracking_order (order_id trading_pair : string)
    (trade_type : TradeType) (price amount : Decimal) : M unit :=
  emit (EvStartTrackingOrder order_id trading_pair trade_type price amount).

(** [self._handle_operation_failure(order_id, trading_pair, operation_name, e)] *)
Definition _handle_operation_failure (order_id trading_pair operation_name : string)
    (e : exn) : M unit :=
  emit (EvHandleOperationFailure order_id trading_pair operation_name e).

(** [safe_ensure_future(coro)]: the coroutine is handed to the event loop,
    which runs it later. *)
Definition safe_ensure_future (c : coroutine) : M unit :=
  emit (EvEnsureFuture c).

(** ** The class *)

(** [__init__]: the object starts without a transaction handler. *)
Definition __init__ (connector_name network chain address : string) : GatewaySwap :=
  {| connector_name := connector_name; network := network; chain := chain;
     address := address; _tx_handler := None |}.

Definition set_tx_handler (h : option obj) : M unit :=
  fun w =>
    (Returned tt,
     {| self := {| connector_name := connector_name (self w);
                   network := network (self w);
                   chain := chain (self w);
                   address := address (self w);
                   _tx_handler := h |};
        trace := trace w |}).

(** The property [tx_handler]. *)
Definition tx_handler : M (option obj) :=
  this ← get_self;
  match _tx_handler this with
  | None => h ← _get_gateway_instance; set_tx_handler (Some h)
  | Some _ => ret tt
  end;;
  this ← get_self;
  ret (_tx_handler this).

Definition parse_price_response (base quote : string) (amount : Decimal)
    (side : TradeType) (price_response : gmap string pyobj)
    (process_exception : bool) : M (option Decimal) :=
  match price_response !! "price" with
  | None =>
      match price_response !! "info" with
      | Some info => logger (LogUnableToGetPrice info)
      | None => logger (LogMissingPrice (dom price_response))
      end;;
      ret None
  | Some p =>
      price ← lift (Decimal_of_str (py_str p));
      ret (Some price)
  end.

(** The handlers of the two [try] statements share their first clause:
    [except asyncio.CancelledError: raise], then [except Exception as e]. *)
Definition except_CancelledError_Exception {A} (on_exception : exn -> M A)
    (e : exn) : M A :=
  if is_CancelledError e then raise e
  else if is_Exception e then on_exception e
  else raise e.

(** The block of the [try] statement of [get_quote_price]: the request is
    built, sent to the gateway and its response parsed. *)
Definition get_quote_price_try (base quote : string) (side : TradeType)
    (amount : Decimal) (slippage_pct : option Decimal)
    (pool_address : option string) : M (option Decimal) :=
  this ← get_self;
  connector_type ← lift (get_connector_type env (connector_name this));
  amount_f ← lift (float amount);
  let request_payload : gmap string param :=
    <["side" := PStr (name side)]>
    (<["amount" := PFloat amount_f]>
    (<["quoteToken" := PStr quote]>
    (<["baseToken" := PStr base]>
    (<["network" := PStr (network this)]> ∅)))) in
  request_payload ←
    match slippage_pct with
    | Some s =>
        slippage_f ← lift (float s);
        ret (<["slippagePct" := PFloat slippage_f]> request_payload)
    | None => ret request_payload
    end;
  let request_payload :=
    match in_CLMM_AMM connector_type, pool_address with
    | true, Some pool => <["poolAddress" := PStr pool]> request_payload
    | _, _ => request_payload
    end in
  gateway ← _get_gateway_instance;
  resp ← connector_request gateway "get" (connector_name this) "quote-swap"
           request_payload;
  parse_price_response base quote amount side resp true.

Definition get_quote_price (trading_pair : string) (is_buy : bool)
    (amount : Decimal) (slippage_pct : option Decimal)
    (pool_address : option string) : M (option Decimal) :=
  '(base, quote) ← lift (unpack2 (split "-" trading_pair));
  let side := if is_buy then BUY else SELL in
  try_except
    (get_quote_price_try base quote side amount slippage_pct pool_address)
    (except_CancelledError_Exception
       (fun e =>
          logger (LogErrorGettingQuotePrice trading_pair side amount e);;
          ret None)).

Definition get_order_price (trading_pair : string) (is_buy : bool)
    (amount : Decimal) : M (option Decimal) :=
  get_quote_price trading_pair is_buy amount None None.

(** What the cache of [@async_ttl_cache(ttl=5, maxsize=10)] holds for the
    arguments of a call of [get_quote_price] at the time of the call: a
    value returned before, or nothing.  The decorator is defined outside the
    source; its time to live and its size decide what the cache holds, and
    are not modelled: the content of the cache is a parameter. *)
Definition Cache : Type :=
  list event -> string -> bool -> Decimal -> option Decimal -> option string ->
  option (option Decimal).

(** The decorator, read from its name and its arguments: a call the cache
    has a value for returns that value and does not run the function; any
    other call runs the function, once. *)
Definition async_ttl_cache (cache : Cache)
    (fn : string -> bool -> Decimal -> option Decimal -> option string ->
          M (option Decimal))
    (trading_pair : string) (is_buy : bool) (amount : Decimal)
    (slippage_pct : option Decimal) (pool_address : option string)
    : M (option Decimal) :=
  fun w =>
    match cache (trace w) trading_pair is_buy amount slippage_pct pool_address
    with
    | Some value => (Returned value, w)
    | None => fn trading_pair is_buy amount slippage_pct pool_address w
    end.

(** [get_quote_price] as its callers get it, under the decorator. *)
Definition cached_get_quote_price (cache : Cache) :=
  async_ttl_cache cache get_quote_price.

(** The block of the [try] statement of [_create_order]: the transaction is
    handed to the transaction handler. *)
Definition _create_order_try (trade_type : TradeType)
    (order_id base quote : string) (amount : Decimal) : M unit :=
  handler ← tx_handler;
  match handler with
  | None =>
      raise (Exn AttributeError
               "'NoneType' object has no attribute 'execute_transaction'")
  | Some gateway =>
      this ← get_self;
      amount_f ← lift (float amount);
      execute_transaction gateway (chain this) (network this)
        (connector_name this) "execute-swap"
        (<["side" := PStr (name trade_type)]>
         (<["amount" := PFloat amount_f]>
         (<["quoteToken" := PStr quote]>
         (<["baseToken" := PStr base]>
         (<["walletAddress" := PStr (address this)]> ∅)))))
        order_id;;
      logger (LogSwapOrderSubmitted order_id)
  end.

Definition _create_order (trade_type : TradeType) (order_id trading_pair : string)
    (amount price : Decimal) : M unit :=
  amount ← lift (quantize_order_amount env trading_pair amount);
  price ← lift (quantize_order_price env trading_pair price);
  '(base, quote) ← lift (unpack2 (split "-" trading_pair));
  start_tracking_order order_id trading_pair trade_type price amount;;
  try_except
    (_create_order_try trade_type order_id base quote amount)
    (except_CancelledError_Exception
       (fun e =>
          _handle_operation_failure order_id trading_pair
            ("submitting " +:+ name trade_type +:+ " swap order") e)).

(** [place_order]: [request_args] are the extra keyword arguments, which
    [_create_order] does not accept. *)
Definition place_order (is_buy : bool) (trading_pair : string)
    (amount price : Decimal) (request_args : list (string * pyobj)) : M string :=
  let side := if is_buy then BUY else SELL in
  order_id ← create_market_order_id side trading_pair;
  coro ← match request_args with
         | [] => ret (CreateOrder side order_id trading_pair amount price)
         | _ :: _ =>
             raise (Exn TypeError
                      "_create_order() got an unexpected keyword argument")
         end;
  safe_ensure_future coro;;
  ret order_id.

Definition buy (trading_pair : string) (amount : Decimal) (order_type : OrderType)
    (price : Decimal) (kwargs : list (string * pyobj)) : M string :=
  place_order true trading_pair amount price [].

Definition sell (trading_pair : string) (amount : Decimal) (order_type : OrderType)
    (price : Decimal) (kwargs : list (string * pyobj)) : M string :=
  place_order false trading_pair amount price [].

(** What the event loop does with a scheduled coroutine. *)
Definition run_coroutine (c : coroutine) : M unit :=
  match c with
  | CreateOrder trade_type order_id trading_pair amount price =>
      _create_order trade_type order_id trading_pair amount price
  end.

End GatewaySwap.


(** ** A small runtime and environment

    A runtime in which decimals and floats are integers and the values of a
    response are strings, and environments over it: the properties below are
    exercised on them. *)

Module Sample.

Fixpoint digits (s : string) (acc : Z) : option Z :=
  match s with
  | EmptyString => Some acc
  | String c r =>
      let n := Z.of_nat (nat_of_ascii c) in
      if ((48 <=? n) && (n <=? 57))%Z then digits r (10 * acc + (n - 48))%Z
      else None
  end.

Definition decimal_of_digits (s : string) : outcome Z :=
  match s with
  | EmptyString => Raised (Exn InvalidOperation "ConversionSyntax")
  | _ =>
      match digits s 0 with
      | Some z => Returned z
      | None => Raised (Exn InvalidOperation "ConversionSyntax")
      end
  end.

#[export] Instance runtime : PyRuntime := {|
  Decimal := Z;
  pyfloat := Z;
  pyobj := string;
  OrderType := unit;
  py_str := fun s => s;
  Decimal_of_str := decimal_of_digits;
  float := fun d => Returned d;
|}.

(** An environment whose gateway answers every request with [response] and
    every transaction with [submission]; each call of
    [_get_gateway_instance] returns a new object. *)
Definition gateway (connector_type : ConnectorType)
    (response : outcome (gmap string string)) (submission : outcome unit) : Env :=
  {| get_connector_type := fun _ => Returned connector_type;
     gateway_instance := fun t => Returned (N.of_nat (length t));
     connector_response := fun _ _ _ _ _ _ => response;
     transaction_result := fun _ _ _ _ _ _ _ _ => submission;
     quantize_order_amount := fun _ d => Returned d;
     quantize_order_price := fun _ d => Returned d;
     market_order_id :=
       fun t side trading_pair =>
         Returned (name side +:+ "-" +:+ trading_pair +:+ "-"
                   +:+ String (ascii_of_nat (48 + length t)) EmptyString) |}.

Definition uniswap : GatewaySwap :=
  __init__ "uniswap/amm" "mainnet" "ethereum" "0xabc".

Definition start : World := {| self := uniswap; trace := [] |}.

(** A gateway that quotes and executes. *)
Definition quoting : Env :=
  gateway AMM (Returned {[ "price" := "1500" ]}) (Returned tt).

(** A gateway that cannot be reached. *)
Definition unreachable : Env :=
  gateway AMM (Raised (Exn ConnectionError "Cannot connect to host"))
    (Raised (Exn ConnectionError "Cannot connect to host")).

(** A cache that holds nothing, and one that holds a quote for every call. *)
Definition cold : Cache := fun _ _ _ _ _ _ => None.

Definition warm : Cache := fun _ _ _ _ _ _ => Some (Some 1500%Z).

(** A gateway whose quote has no number for a price. *)
Definition garbled : Env :=
  gateway AMM (Returned {[ "price" := "n/a" ]}) (Returned tt).

(** A gateway whose answer is cut by an interrupt from the keyboard. *)
Definition interrupted : Env :=
  gateway AMM (Raised (Exn KeyboardInterrupt EmptyString))
    (Raised (Exn KeyboardInterrupt EmptyString)).

(** A gateway whose client cannot be obtained at the second call made to
    the outside, and can at any other. *)
Definition flaky : Env :=
  {| get_connector_type := fun _ => Returned AMM;
     gateway_instance :=
       fun t =>
         if Nat.eqb (length t) 1
         then Raised (Exn ConnectionError "Cannot connect to host")
         else Returned (N.of_nat (length t));
     connector_response := fun _ _ _ _ _ _ => Returned {[ "price" := "1500" ]};
     transaction_result := fun _ _ _ _ _ _ _ _ => Returned tt;
     quantize_order_amount := fun _ d => Returned d;
     quantize_order_price := fun _ d => Returned d;
     market_order_id := fun _ side _ => Returned (name side) |}.

(** The object once a transaction handler is stored. *)
Definition ready : World :=
  {| self := {| connector_name := "uniswap/amm"; network := "mainnet";
                chain := "ethereum"; address := "0xabc";
                _tx_handler := Some 7%N |};
     trace := [] |}.

End Sample.


(** ** Observations

    What the properties below say about a run: the events it adds, the
    requests among them, and the calls a client can make on the object. *)

Section Observations.

Context {rt : PyRuntime}.
Variable env : Env.

(** The events a parse adds to the trace are records for the logger. *)
Definition parse_log (price_response : gmap string pyobj) : list event :=
  match price_response !! "price", price_response !! "info" with
  | Some _, _ => []
  | None, Some info => [EvLog (LogUnableToGetPrice info)]
  | None, None => [EvLog (LogMissingPrice (dom price_response))]
  end.

(** The number of events of a trace that satisfy [p]. *)
Fixpoint count (p : event -> bool) (t : list event) : nat :=
  match t with
  | [] => 0
  | ev :: t' => (if p ev then 1 else 0) + count p t'
  end.

(** A request to the gateway, to any endpoint. *)
Definition is_connector_request (ev : event) : bool :=
  match ev with
  | EvConnectorRequest _ _ _ _ _ => true
  | _ => false
  end.

(** A request to the "quote-swap" endpoint. *)
Definition is_quote_swap_request (ev : event) : bool :=
  match ev with
  | EvConnectorRequest _ _ _ endpoint _ => String.eqb endpoint "quote-swap"
  | _ => false
  end.

(** A request to another endpoint than "quote-swap". *)
Definition is_other_request (ev : event) : bool :=
  is_connector_request ev && negb (is_quote_swap_request ev).

(** A submission to the transaction handler. *)
Definition is_execute_transaction (ev : event) : bool :=
  match ev with
  | EvExecuteTransaction _ _ _ _ _ _ _ => true
  | _ => false
  end.

(** A record handed to the logger. *)
Definition is_log (ev : event) : bool :=
  match ev with
  | EvLog _ => true
  | _ => false
  end.

(** A call of [_handle_operation_failure]. *)
Definition is_operation_failure (ev : event) : bool :=
  match ev with
  | EvHandleOperationFailure _ _ _ _ => true
  | _ => false
  end.

(** [float(x)] for an [x] that may be [None], which is then left as it is. *)
Definition float_opt (x : option Decimal) : outcome (option pyfloat) :=
  match x with
  | Some d => outcome_map Some (float d)
  | None => Returned None
  end.

(** The dictionary [get_quote_price] has built when it reaches the gateway,
    from the values of its conversions. *)
Definition quote_swap_payload (network base quote : string) (amount_f : pyfloat)
    (side : TradeType) (slippage_f : option pyfloat)
    (pool_address : option string) (connector_type : ConnectorType)
    : gmap string param :=
  let request_payload : gmap string param :=
    <["side" := PStr (name side)]>
    (<["amount" := PFloat amount_f]>
    (<["quoteToken" := PStr quote]>
    (<["baseToken" := PStr base]>
    (<["network" := PStr network]> ∅)))) in
  let request_payload :=
    match slippage_f with
    | Some f => <["slippagePct" := PFloat f]> request_payload
    | None => request_payload
    end in
  match in_CLMM_AMM connector_type, pool_address with
  | true, Some pool => <["poolAddress" := PStr pool]> request_payload
  | _, _ => request_payload
  end.

(** The dictionary [_create_order] submits, from the float of the quantized
    amount. *)
Definition execute_swap_params (address base quote : string) (amount_f : pyfloat)
    (trade_type : TradeType) : gmap string param :=
  <["side" := PStr (name trade_type)]>
  (<["amount" := PFloat amount_f]>
  (<["quoteToken" := PStr quote]>
  (<["baseToken" := PStr base]>
  (<["walletAddress" := PStr address]> ∅)))).

(** A computation adds at most [n] events that satisfy [p], in any state. *)
Definition at_most (p : event -> bool) (n : nat) {A} (m : M A) : Prop :=
  forall w, exists evs, trace (snd (m w)) = trace w ++ evs /\ count p evs <= n.

(** A computation keeps a transaction handler that is set. *)
Definition keeps_tx_handler {A} (m : M A) : Prop :=
  forall w h, _tx_handler (self w) = Some h ->
              _tx_handler (self (snd (m w))) = Some h.

(** The calls a client can make on the object after its construction. *)
Inductive method_call : Type :=
| Call_tx_handler
| Call_get_quote_price (trading_pair : string) (is_buy : bool) (amount : Decimal)
    (slippage_pct : option Decimal) (pool_address : option string)
| Call_get_order_price (trading_pair : string) (is_buy : bool) (amount : Decimal)
| Call_parse_price_response (base quote : string) (amount : Decimal)
    (side : TradeType) (price_response : gmap string pyobj)
    (process_exception : bool)
| Call_buy (trading_pair : string) (amount : Decimal) (order_type : OrderType)
    (price : Decimal) (kwargs : list (string * pyobj))
| Call_sell (trading_pair : string) (amount : Decimal) (order_type : OrderType)
    (price : Decimal) (kwargs : list (string * pyobj))
| Call_place_order (is_buy : bool) (trading_pair : string) (amount price : Decimal)
    (request_args : list (string * pyobj))
| Call_create_order (trade_type : TradeType) (order_id trading_pair : string)
    (amount price : Decimal).

(** The state a call leaves, whether it returns or raises. *)
Definition after (c : method_call) (w : World) : World :=
  match c with
  | Call_tx_handler => snd (tx_handler env w)
  | Call_get_quote_price trading_pair is_buy amount slippage_pct pool_address =>
      snd (get_quote_price env trading_pair is_buy amount slippage_pct
             pool_address w)
  | Call_get_order_price trading_pair is_buy amount =>
      snd (get_order_price env trading_pair is_buy amount w)
  | Call_parse_price_response base quote amount side price_response
      process_exception =>
      snd (parse_price_response base quote amount side price_response
             process_exception w)
  | Call_buy trading_pair amount order_type price kwargs =>
      snd (buy env trading_pair amount order_type price kwargs w)
  | Call_sell trading_pair amount order_type price kwargs =>
      snd (sell env trading_pair amount order_type price kwargs w)
  | Call_place_order is_buy trading_pair amount price request_args =>
      snd (place_order env is_buy trading_pair amount price request_args w)
  | Call_create_order trade_type order_id trading_pair amount price =>
      snd (_create_order env trade_type order_id trading_pair amount price w)
  end.

(** The state a sequence of calls leaves. *)
Definition after_all (calls : list method_call) (w : World) : World :=
  fold_left (fun w c => after c w) calls w.

(** [s.count(c)] for a character [c] *)
Fixpoint occurrences (c : ascii) (s : string) : nat :=
  match s with
  | EmptyString => 0
  | String d r => (if Ascii.eqb d c then 1 else 0) + occurrences c r
  end.

(** A call of [_get_gateway_instance]. *)
Definition is_get_gateway_instance (ev : event) : bool :=
  match ev with
  | EvGetGatewayInstance => true
  | _ => false
  end.

(** A coroutine handed to the event loop. *)
Definition is_ensure_future (ev : event) : bool :=
  match ev with
  | EvEnsureFuture _ => true
  | _ => false
  end.

(** A start of the tracking of an order. *)
Definition is_start_tracking (ev : event) : bool :=
  match ev with
  | EvStartTrackingOrder _ _ _ _ _ => true
  | _ => false
  end.

(** An event of the life of an order: the creation of its id, its hand-over
    to the event loop, its tracking, its submission, the handling of its
    failure. *)
Definition is_order_event (ev : event) : bool :=
  match ev with
  | EvCreateMarketOrderId _ _ | EvEnsureFuture _
  | EvStartTrackingOrder _ _ _ _ _ | EvExecuteTransaction _ _ _ _ _ _ _
  | EvHandleOperationFailure _ _ _ _ => true
  | _ => false
  end.

(** The attributes of the connection are the same in two states of the
    object. *)
Definition same_connector (this this' : GatewaySwap) : Prop :=
  connector_name this' = connector_name this /\
  network this' = network this /\
  chain this' = chain this /\
  address this' = address this.

(** A computation leaves the object in a state related to the one it found
    it in. *)
Definition preserves (R : GatewaySwap -> GatewaySwap -> Prop) {A} (m : M A)
    : Prop :=
  forall w, R (self w) (self (snd (m w))).

(** The calls that read the property [tx_handler]. *)
Definition reads_tx_handler (c : method_call) : bool :=
  match c with
  | Call_tx_handler | Call_create_order _ _ _ _ _ => true
  | _ => false
  end.

(** A lookup of the gateway client, or a submission to another object than
    [h]. *)
Definition bypasses_handler (h : obj) (ev : event) : bool :=
  match ev with
  | EvGetGatewayInstance => true
  | EvExecuteTransaction gateway _ _ _ _ _ _ => negb (N.eqb gateway h)
  | _ => false
  end.

End Observations.


(** * Properties *)

(** ** Splitting a trading pair *)

Section Split.

Variable sep : ascii.

Lemma split_not_nil (s : string) : split sep s ≠ [].
Proof.
  destruct s as [|c r]; simpl; [done|].
  destruct (Ascii.eqb c sep); [done|].
  destruct (split sep r); done.
Qed.

Lemma split_without_sep (s : string) :
  contains sep s = false → split sep s = [s].
Proof.
  induction s as [|c r IH]; simpl; [done|].
  intros [Hc Hr]%orb_false_iff.
  by rewrite Hc, (IH Hr).
Qed.

Lemma split_at_first_sep (b q : string) :
  contains sep b = false →
  split sep (b +:+ String sep q) = b :: split sep q.
Proof.
  induction b as [|c r IH]; simpl.
  - intros _. by rewrite Ascii.eqb_refl.
  - intros [Hc Hr]%orb_false_iff.
    by rewrite Hc, (IH Hr).
Qed.

Lemma split_one_piece (s q : string) :
  split sep s = [q] → s = q ∧ contains sep s = false.
Proof.
  revert q. induction s as [|c r IH]; simpl; intros q.
  - by intros [= <-].
  - destruct (Ascii.eqb c sep) eqn:Hc.
    + intros [= _ Hr]. by destruct (split_not_nil r).
    + destruct (split sep r) as [|piece pieces] eqn:Hr.
      { by destruct (split_not_nil r). }
      intros [= <- ->].
      destruct (IH piece eq_refl) as [-> Hno].
      by rewrite Hno.
Qed.

Lemma split_two_pieces (s b q : string) :
  split sep s = [b; q] →
  s = b +:+ String sep q ∧ contains sep b = false ∧ contains sep q = false.
Proof.
  revert b. induction s as [|c r IH]; simpl; intros b; [done|].
  destruct (Ascii.eqb c sep) eqn:Hc.
  - intros [= <- Hr].
    apply Ascii.eqb_eq in Hc as ->.
    by destruct (split_one_piece r q Hr) as [-> Hno].
  - destruct (split sep r) as [|piece pieces] eqn:Hr; [done|].
    intros [= <- ->].
    destruct (IH piece eq_refl) as (-> & Hb & Hq).
    simpl. by rewrite Hc, Hb.
Qed.

Lemma split_pair (b q : string) :
  contains sep b = false → contains sep q = false →
  split sep (b +:+ String sep q) = [b; q].
Proof.
  intros Hb Hq.
  by rewrite (split_at_first_sep b q Hb), (split_without_sep q Hq).
Qed.

End Split.

Lemma unpack2_Returned (parts : list string) (a b : string) :
  unpack2 parts = Returned (a, b) ↔ parts = [a; b].
Proof.
  split; [|by intros ->].
  destruct parts as [|x [|y [|z rest]]]; simpl; try done.
  by intros [= -> ->].
Qed.

Lemma unpack2_Raised (parts : list string) :
  length parts ≠ 2 → ∃ msg, unpack2 parts = Raised (Exn ValueError msg).
Proof.
  destruct parts as [|x [|y [|z rest]]]; simpl; intros Hlen;
    [by eexists | by eexists | done | by eexists].
Qed.

(** A trading pair unpacks into two tokens exactly when it has the form
    [base-quote] with no other dash. *)
Lemma trading_pair_unpacks (trading_pair base quote : string) :
  unpack2 (split "-" trading_pair) = Returned (base, quote) ↔
  trading_pair = base +:+ "-" +:+ quote ∧
  contains "-" base = false ∧ contains "-" quote = false.
Proof.
  rewrite unpack2_Returned. split.
  - apply split_two_pieces.
  - intros (-> & Hb & Hq). by apply split_pair.
Qed.

(** ** Running the monad *)

Section Properties.

Context {rt : PyRuntime}.
Variable env : Env.

Lemma run_bind {A B} (m : M A) (k : A → M B) (w : World) :
  (m ≫= k) w =
  match m w with
  | (Returned a, w') => k a w'
  | (Raised e, w') => (Raised e, w')
  end.
Proof. reflexivity. Qed.

Lemma run_lift_Returned {A B} (o : outcome A) (a : A) (k : A → M B) (w : World) :
  o = Returned a → (lift o ≫= k) w = k a w.
Proof. by intros ->. Qed.

Lemma run_lift_Raised {A B} (o : outcome A) (e : exn) (k : A → M B) (w : World) :
  o = Raised e → (lift o ≫= k) w = (Raised e, w).
Proof. by intros ->. Qed.

Ltac run :=
  unfold mbind, M_bind, bind, mret, M_ret, ret, raise, lift, get_self,
    logger, start_tracking_order, _handle_operation_failure,
    safe_ensure_future, create_market_order_id, execute_transaction,
    connector_request, _get_gateway_instance, emit, ask, log_call; simpl.

(** ** Parsing a price response *)

Lemma parse_price_response_run (base quote : string) (amount : Decimal)
    (side : TradeType) (price_response : gmap string pyobj)
    (process_exception : bool) (w : World) :
  parse_price_response base quote amount side price_response process_exception w =
  (match price_response !! "price" with
   | Some p => outcome_map Some (Decimal_of_str (py_str p))
   | None => Returned None
   end,
   {| self := self w; trace := trace w ++ parse_log price_response |}).
Proof.
  unfold parse_price_response, parse_log.
  destruct w as [this t].
  destruct (price_response !! "price") as [p|].
  - run. rewrite app_nil_r. by destruct (Decimal_of_str (py_str p)).
  - by destruct (price_response !! "info").
Qed.

(** C1. [parse_price_response] returns [Decimal(str(response["price"]))]
    when the response has the key "price" and [None] when it has not; the
    result is the same for two responses with the same "price" entry,
    whatever their other keys and the other arguments; the other keys only
    decide which record goes to the logger. *)
Theorem parse_price_response_price_only
    (base quote base' quote' : string) (amount amount' : Decimal)
    (side side' : TradeType) (price_response price_response' : gmap string pyobj)
    (process_exception process_exception' : bool) (w w' : World) :
  let r := parse_price_response base quote amount side price_response
               process_exception w in
  let r' := parse_price_response base' quote' amount' side' price_response'
                process_exception' w' in
  (∀ p, price_response !! "price" = Some p →
        fst r = outcome_map Some (Decimal_of_str (py_str p))) ∧
  (price_response !! "price" = None → fst r = Returned None) ∧
  (price_response !! "price" = price_response' !! "price" → fst r = fst r') ∧
  self (snd r) = self w ∧
  ∃ records, trace (snd r) = trace w ++ (EvLog <$> records).
Proof.
  intros r r'. subst r r'.
  rewrite !parse_price_response_run. simpl.
  split_and!.
  - by intros p ->.
  - by intros ->.
  - by intros ->.
  - done.
  - unfold parse_log.
    destruct (price_response !! "price"), (price_response !! "info").
    + by exists [].
    + by exists [].
    + by eexists [_].
    + by eexists [_].
Qed.

(** ** The trading pair of a quote *)

(** C9. When the split of the trading pair on "-" does not give two parts,
    [get_quote_price] raises a [ValueError] and leaves the state as it was:
    no request is made and nothing is logged; the call does not return
    [None]. *)
Theorem get_quote_price_bad_trading_pair
    (trading_pair : string) (is_buy : bool) (amount : Decimal)
    (slippage_pct : option Decimal) (pool_address : option string) (w : World) :
  length (split "-" trading_pair) ≠ 2 →
  let r := get_quote_price env trading_pair is_buy amount slippage_pct
             pool_address w in
  (∃ msg, r = (Raised (Exn ValueError msg), w)) ∧ fst r ≠ Returned None.
Proof.
  intros Hlen r. subst r.
  destruct (unpack2_Raised _ Hlen) as [msg Hmsg].
  unfold get_quote_price.
  rewrite (run_lift_Raised _ _ _ _ Hmsg).
  split; [by exists msg | done].
Qed.

(** ** The order price *)

(** C8. [get_order_price] is [get_quote_price] on the same trading pair,
    side and amount, with [slippage_pct] and [pool_address] at their default
    [None]: the same outcome and the same state, from any state. *)
Theorem get_order_price_is_quote_price
    (trading_pair : string) (is_buy : bool) (amount : Decimal) (w : World) :
  get_order_price env trading_pair is_buy amount w =
  get_quote_price env trading_pair is_buy amount None None w.
Proof. reflexivity. Qed.

(** ** Placing an order *)

Lemma place_order_run (is_buy : bool) (trading_pair : string)
    (amount price : Decimal) (w : World) :
  let side := if is_buy then BUY else SELL in
  place_order env is_buy trading_pair amount price [] w =
  match market_order_id env (trace w) side trading_pair with
  | Returned order_id =>
      (Returned order_id,
       {| self := self w;
          trace := trace w ++
                   [EvCreateMarketOrderId side trading_pair;
                    EvEnsureFuture
                      (CreateOrder side order_id trading_pair amount price)] |})
  | Raised e =>
      (Raised e,
       {| self := self w;
          trace := trace w ++ [EvCreateMarketOrderId side trading_pair] |})
  end.
Proof.
  unfold place_order. run.
  destruct (market_order_id env (trace w) _ trading_pair); [|done].
  by rewrite <- app_assoc.
Qed.

(** C5. [buy] returns the order id that [create_market_order_id(BUY,
    trading_pair)] produces and [sell] the one for [SELL]; the id is the same
    whatever the amount, the order type and the price; the methods do not
    create the order themselves: they hand the coroutine [_create_order] of
    that id to the event loop and return. *)
Theorem buy_sell_return_order_id
    (trading_pair : string) (amount price : Decimal) (order_type : OrderType)
    (kwargs : list (string * pyobj)) (w : World) :
  let side_of (is_buy : bool) := if is_buy then BUY else SELL in
  let call (is_buy : bool) :=
    if is_buy then buy env trading_pair amount order_type price kwargs w
    else sell env trading_pair amount order_type price kwargs w in
  ∀ is_buy : bool,
    fst (call is_buy) =
      fst (create_market_order_id env (side_of is_buy) trading_pair w) ∧
    (∀ amount' price' order_type' kwargs',
       fst (if is_buy
            then buy env trading_pair amount' order_type' price' kwargs' w
            else sell env trading_pair amount' order_type' price' kwargs' w) =
       fst (call is_buy)) ∧
    (∀ order_id,
       fst (call is_buy) = Returned order_id →
       let coro := CreateOrder (side_of is_buy) order_id trading_pair amount price in
       snd (call is_buy) =
         {| self := self w;
            trace := trace w ++ [EvCreateMarketOrderId (side_of is_buy) trading_pair;
                                 EvEnsureFuture coro] |} ∧
       run_coroutine env coro =
         _create_order env (side_of is_buy) order_id trading_pair amount price).
Proof.
  intros side_of call is_buy. subst call. cbv beta.
  assert (Hrun : ∀ a p o k,
    (if is_buy then buy env trading_pair a o p k w
     else sell env trading_pair a o p k w) =
    place_order env is_buy trading_pair a p [] w) by (by destruct is_buy).
  rewrite Hrun. split_and!.
  - rewrite place_order_run. fold (side_of is_buy).
    unfold create_market_order_id, ask. simpl.
    by destruct (market_order_id env (trace w) (side_of is_buy) trading_pair).
  - intros amount' price' order_type' kwargs'.
    rewrite Hrun, !place_order_run.
    by destruct (market_order_id env (trace w) _ trading_pair).
  - intros order_id. rewrite place_order_run. fold (side_of is_buy).
    destruct (market_order_id env (trace w) (side_of is_buy) trading_pair);
      simpl; [|done].
    by intros [= ->].
Qed.

(** ** The transaction handler *)

Lemma keeps_ret {A} (a : A) : keeps_tx_handler (ret a).
Proof. by intros w h. Qed.

Lemma keeps_raise {A} (e : exn) : keeps_tx_handler (@raise _ A e).
Proof. by intros w h. Qed.

Lemma keeps_lift {A} (o : outcome A) : keeps_tx_handler (lift o).
Proof. by intros w h. Qed.

Lemma keeps_get_self : keeps_tx_handler get_self.
Proof. by intros w h. Qed.

Lemma keeps_emit (ev : event) : keeps_tx_handler (emit ev).
Proof. by intros w h. Qed.

Lemma keeps_ask {A} (ev : event) (answer : list event → outcome A) :
  keeps_tx_handler (ask ev answer).
Proof. by intros w h. Qed.

Lemma keeps_bind {A B} (m : M A) (k : A → M B) :
  keeps_tx_handler m → (∀ a, keeps_tx_handler (k a)) →
  keeps_tx_handler (m ≫= k).
Proof.
  intros Hm Hk w h Hw. rewrite run_bind.
  specialize (Hm w h Hw).
  destruct (m w) as [[a|e] w']; simpl in *; [by apply Hk | done].
Qed.

Lemma keeps_try_except {A} (body : M A) (handler : exn → M A) :
  keeps_tx_handler body → (∀ e, keeps_tx_handler (handler e)) →
  keeps_tx_handler (try_except body handler).
Proof.
  intros Hm Hk w h Hw. unfold try_except.
  specialize (Hm w h Hw).
  destruct (body w) as [[a|e] w']; simpl in *; [done | by apply Hk].
Qed.

Lemma keeps_except {A} (on_exception : exn → M A) (e : exn) :
  (∀ e, keeps_tx_handler (on_exception e)) →
  keeps_tx_handler (except_CancelledError_Exception on_exception e).
Proof.
  intros H. unfold except_CancelledError_Exception.
  destruct (is_CancelledError e); [apply keeps_raise|].
  destruct (is_Exception e); [apply H | apply keeps_raise].
Qed.

Lemma tx_handler_first_access (w : World) (h : obj) :
  _tx_handler (self w) = None →
  gateway_instance env (trace w) = Returned h →
  tx_handler env w =
  (Returned (Some h),
   {| self := {| connector_name := connector_name (self w);
                 network := network (self w);
                 chain := chain (self w);
                 address := address (self w);
                 _tx_handler := Some h |};
      trace := trace w ++ [EvGetGatewayInstance] |}).
Proof.
  intros Hnone Hgw. unfold tx_handler. run.
  by rewrite Hnone, Hgw.
Qed.

Lemma tx_handler_stored (w : World) (h : obj) :
  _tx_handler (self w) = Some h → tx_handler env w = (Returned (Some h), w).
Proof.
  intros Hsome. unfold tx_handler. run.
  rewrite Hsome. simpl. by rewrite Hsome.
Qed.

Lemma keeps_tx_handler_property : keeps_tx_handler (tx_handler env).
Proof. intros w h Hw. by rewrite (tx_handler_stored w h Hw). Qed.

Ltac keeps :=
  repeat first
    [ apply keeps_tx_handler_property
    | apply keeps_ret | apply keeps_raise | apply keeps_lift
    | apply keeps_get_self | apply keeps_emit | apply keeps_ask
    | apply keeps_bind; [|intros ?]
    | apply keeps_try_except; [|intros ?]
    | apply keeps_except; intros ?
    | match goal with
      | |- keeps_tx_handler (match ?x with _ => _ end) => destruct x
      end ].

Lemma keeps_parse_price_response base quote amount side price_response
    process_exception :
  keeps_tx_handler
    (parse_price_response base quote amount side price_response
       process_exception).
Proof. unfold parse_price_response. keeps. Qed.

Lemma keeps_get_quote_price trading_pair is_buy amount slippage_pct pool_address :
  keeps_tx_handler
    (get_quote_price env trading_pair is_buy amount slippage_pct pool_address).
Proof.
  unfold get_quote_price, get_quote_price_try. keeps.
  apply keeps_parse_price_response.
Qed.

Lemma keeps_create_order trade_type order_id trading_pair amount price :
  keeps_tx_handler
    (_create_order env trade_type order_id trading_pair amount price).
Proof.
  unfold _create_order, _create_order_try. keeps.
Qed.

Lemma keeps_place_order is_buy trading_pair amount price request_args :
  keeps_tx_handler (place_order env is_buy trading_pair amount price request_args).
Proof. unfold place_order. keeps. Qed.

Lemma after_keeps_tx_handler (c : method_call) (w : World) (h : obj) :
  _tx_handler (self w) = Some h → _tx_handler (self (after env c w)) = Some h.
Proof.
  destruct c; simpl.
  - apply keeps_tx_handler_property.
  - apply keeps_get_quote_price.
  - apply keeps_get_quote_price.
  - apply keeps_parse_price_response.
  - apply keeps_place_order.
  - apply keeps_place_order.
  - apply keeps_place_order.
  - apply keeps_create_order.
Qed.

Lemma after_all_keeps_tx_handler (calls : list method_call) (w : World) (h : obj) :
  _tx_handler (self w) = Some h →
  _tx_handler (self (after_all env calls w)) = Some h.
Proof.
  revert w. induction calls as [|c calls IH]; intros w Hw; simpl; [done|].
  apply IH. by apply after_keeps_tx_handler.
Qed.

(** C10. The first access to [tx_handler] stores the result of
    [_get_gateway_instance()] in [_tx_handler]; a later access, after any
    calls on the object, returns the stored object and calls nothing; no
    call on the object changes a [_tx_handler] that is set. *)
Theorem tx_handler_set_once (w : World) (h : obj) (calls : list method_call) :
  _tx_handler (self w) = None →
  gateway_instance env (trace w) = Returned h →
  let first := tx_handler env w in
  let later := after_all env calls (snd first) in
  fst first = Returned (Some h) ∧
  _tx_handler (self (snd first)) = Some h ∧
  trace (snd first) = trace w ++ [EvGetGatewayInstance] ∧
  _tx_handler (self later) = Some h ∧
  tx_handler env later = (Returned (Some h), later).
Proof.
  intros Hnone Hgw first later. subst later first.
  rewrite (tx_handler_first_access w h Hnone Hgw). simpl.
  split_and!; try done.
  - by apply after_all_keeps_tx_handler.
  - apply tx_handler_stored. by apply after_all_keeps_tx_handler.
Qed.

(** ** Counting the requests of a run *)

Section Counting.

Variable p : event → bool.

Lemma count_app (t1 t2 : list event) : count p (t1 ++ t2) = count p t1 + count p t2.
Proof. induction t1 as [|ev t1 IH]; simpl; [done|]. rewrite IH. lia. Qed.

Lemma at_most_weaken {A} (n n' : nat) (m : M A) :
  n ≤ n' → at_most p n m → at_most p n' m.
Proof.
  intros Hn Hm w. destruct (Hm w) as (evs & Ht & Hc).
  exists evs. split; [done | lia].
Qed.

Lemma at_most_ret {A} (a : A) : at_most p 0 (ret a).
Proof. intros w. exists []. by rewrite app_nil_r. Qed.

Lemma at_most_raise {A} (e : exn) : at_most p 0 (@raise _ A e).
Proof. intros w. exists []. by rewrite app_nil_r. Qed.

Lemma at_most_lift {A} (o : outcome A) : at_most p 0 (lift o).
Proof. intros w. exists []. by rewrite app_nil_r. Qed.

Lemma at_most_get_self : at_most p 0 get_self.
Proof. intros w. exists []. by rewrite app_nil_r. Qed.

Lemma at_most_emit (ev : event) : at_most p (if p ev then 1 else 0) (emit ev).
Proof. intros w. exists [ev]. simpl. split; [done | lia]. Qed.

Lemma at_most_ask {A} (ev : event) (answer : list event → outcome A) :
  at_most p (if p ev then 1 else 0) (ask ev answer).
Proof. intros w. exists [ev]. simpl. split; [done | lia]. Qed.

Lemma at_most_emit_uncounted (ev : event) : p ev = false → at_most p 0 (emit ev).
Proof.
  intros Hev.
  apply (at_most_weaken (if p ev then 1 else 0)); [by rewrite Hev|].
  apply at_most_emit.
Qed.

Lemma at_most_ask_uncounted {A} (ev : event) (answer : list event → outcome A) :
  p ev = false → at_most p 0 (ask ev answer).
Proof.
  intros Hev.
  apply (at_most_weaken (if p ev then 1 else 0)); [by rewrite Hev|].
  apply at_most_ask.
Qed.

Lemma at_most_bind {A B} (n1 n2 : nat) (m : M A) (k : A → M B) :
  at_most p n1 m → (∀ a, at_most p n2 (k a)) → at_most p (n1 + n2) (m ≫= k).
Proof.
  intros Hm Hk w. rewrite run_bind.
  destruct (Hm w) as (evs1 & Ht1 & Hc1).
  destruct (m w) as [[a|e] w']; simpl in *.
  - destruct (Hk a w') as (evs2 & Ht2 & Hc2).
    exists (evs1 ++ evs2). rewrite Ht2, Ht1, app_assoc, count_app.
    split; [done | lia].
  - exists evs1. split; [done | lia].
Qed.

Lemma at_most_try_except {A} (n1 n2 : nat) (body : M A) (handler : exn → M A) :
  at_most p n1 body → (∀ e, at_most p n2 (handler e)) →
  at_most p (n1 + n2) (try_except body handler).
Proof.
  intros Hm Hk w. unfold try_except.
  destruct (Hm w) as (evs1 & Ht1 & Hc1).
  destruct (body w) as [[a|e] w']; simpl in *.
  - exists evs1. split; [done | lia].
  - destruct (Hk e w') as (evs2 & Ht2 & Hc2).
    exists (evs1 ++ evs2). rewrite Ht2, Ht1, app_assoc, count_app.
    split; [done | lia].
Qed.

(** A step that adds none of the counted events, before the rest. *)
Lemma at_most_then {A B} (n : nat) (m : M A) (k : A → M B) :
  at_most p 0 m → (∀ a, at_most p n (k a)) → at_most p n (m ≫= k).
Proof. intros Hm Hk. by apply (at_most_bind 0 n). Qed.

Lemma at_most_except {A} (n : nat) (on_exception : exn → M A) (e : exn) :
  (∀ e, at_most p n (on_exception e)) →
  at_most p n (except_CancelledError_Exception on_exception e).
Proof.
  intros H. unfold except_CancelledError_Exception.
  destruct (is_CancelledError e).
  { apply (at_most_weaken 0); [lia | apply at_most_raise]. }
  destruct (is_Exception e); [apply H|].
  apply (at_most_weaken 0); [lia | apply at_most_raise].
Qed.

Lemma at_most_parse_price_response base quote amount side price_response
    process_exception :
  (∀ r, p (EvLog r) = false) →
  at_most p 0
    (parse_price_response base quote amount side price_response
       process_exception).
Proof.
  intros Hlog w. rewrite parse_price_response_run. simpl.
  exists (parse_log price_response). split; [done|].
  unfold parse_log.
  destruct (price_response !! "price"), (price_response !! "info"); simpl;
    rewrite ?Hlog; lia.
Qed.

Lemma at_most_tx_handler :
  p EvGetGatewayInstance = false → at_most p 0 (tx_handler env).
Proof.
  intros Hget w.
  destruct (_tx_handler (self w)) as [h|] eqn:Hh.
  - rewrite (tx_handler_stored w h Hh). exists []. by rewrite app_nil_r.
  - exists [EvGetGatewayInstance]. simpl. rewrite Hget. split; [|lia].
    unfold tx_handler. run. rewrite Hh.
    by destruct (gateway_instance env (trace w)).
Qed.

End Counting.

Ltac at_most_zero :=
  first
    [ apply at_most_ret | apply at_most_raise | apply at_most_lift
    | apply at_most_get_self | apply at_most_ask | apply at_most_emit
    | apply at_most_then; [solve [at_most_zero] | intros ?; at_most_zero]
    | match goal with
      | |- at_most _ _ (match ?x with _ => _ end) => destruct x; at_most_zero
      end
    | idtac ].

(** ** The request of a quote *)

Section QuoteRequests.

Variable p : event → bool.
Variable n : nat.
Hypothesis p_log : ∀ r, p (EvLog r) = false.
Hypothesis p_get_gateway_instance : p EvGetGatewayInstance = false.
Hypothesis p_quote_swap :
  ∀ gateway method connector payload,
    (if p (EvConnectorRequest gateway method connector "quote-swap" payload)
     then 1 else 0) ≤ n.

Lemma get_quote_price_try_at_most base quote side amount slippage_pct
    pool_address :
  at_most p n
    (get_quote_price_try env base quote side amount slippage_pct pool_address).
Proof.
  unfold get_quote_price_try. at_most_zero.
  all: apply at_most_then; [by apply at_most_ask_uncounted|]; intros gateway.
  all: apply (at_most_weaken _ (n + 0)); [lia|].
  all: apply at_most_bind;
    [eapply at_most_weaken; [apply p_quote_swap | apply at_most_ask]|];
    intros resp.
  all: by apply at_most_parse_price_response.
Qed.

Lemma get_quote_price_at_most trading_pair is_buy amount slippage_pct
    pool_address :
  at_most p n
    (get_quote_price env trading_pair is_buy amount slippage_pct pool_address).
Proof.
  unfold get_quote_price.
  apply at_most_then; [apply at_most_lift|]. intros [base quote].
  apply (at_most_weaken _ (n + 0)); [lia|].
  apply at_most_try_except.
  - apply get_quote_price_try_at_most.
  - intros e. apply at_most_except. intros e'.
    apply at_most_then; [|intros _; apply at_most_ret].
    by apply at_most_emit_uncounted.
Qed.

End QuoteRequests.

(** Once the request is built and the gateway client obtained, the block
    sends the request and parses the response. *)
Lemma get_quote_price_try_run base quote side amount slippage_pct pool_address
    (w : World) (connector_type : ConnectorType) (amount_f : pyfloat)
    (slippage_f : option pyfloat) (gateway : obj) :
  get_connector_type env (connector_name (self w)) = Returned connector_type →
  float amount = Returned amount_f →
  float_opt slippage_pct = Returned slippage_f →
  gateway_instance env (trace w) = Returned gateway →
  get_quote_price_try env base quote side amount slippage_pct pool_address w =
  (connector_request env gateway "get" (connector_name (self w)) "quote-swap"
     (quote_swap_payload (network (self w)) base quote amount_f side
        slippage_f pool_address connector_type)
   ≫= λ resp, parse_price_response base quote amount side resp true)
    (log_call EvGetGatewayInstance w).
Proof.
  intros Hct Hamount Hslip Hgw.
  unfold get_quote_price_try, quote_swap_payload. run.
  rewrite Hct, Hamount.
  destruct slippage_pct as [s|]; simpl in Hslip.
  - destruct (float s) as [f|e]; simpl in Hslip; [|done].
    injection Hslip as <-. by rewrite Hgw.
  - injection Hslip as <-. by rewrite Hgw.
Qed.

Lemma count_parse_log (p : event → bool) (price_response : gmap string pyobj) :
  (∀ r, p (EvLog r) = false) → count p (parse_log price_response) = 0.
Proof.
  intros Hlog. unfold parse_log.
  destruct (price_response !! "price"), (price_response !! "info"); simpl;
    by rewrite ?Hlog.
Qed.

(** With a well-formed trading pair, a request that can be built and a
    gateway client, the events of a quote are the lookup of the client, the
    request, and then no other request. *)
Lemma get_quote_price_sends base quote is_buy amount slippage_pct pool_address
    (w : World) (connector_type : ConnectorType) (amount_f : pyfloat)
    (slippage_f : option pyfloat) (gateway : obj) :
  contains "-" base = false → contains "-" quote = false →
  get_connector_type env (connector_name (self w)) = Returned connector_type →
  float amount = Returned amount_f →
  float_opt slippage_pct = Returned slippage_f →
  gateway_instance env (trace w) = Returned gateway →
  ∃ rest,
    trace (snd (get_quote_price env (base +:+ "-" +:+ quote) is_buy amount
                  slippage_pct pool_address w)) =
    trace w ++
      EvGetGatewayInstance ::
      EvConnectorRequest gateway "get" (connector_name (self w)) "quote-swap"
        (quote_swap_payload (network (self w)) base quote amount_f
           (if is_buy then BUY else SELL) slippage_f pool_address
           connector_type) :: rest ∧
    count is_connector_request rest = 0.
Proof.
  intros Hb Hq Hct Hamount Hslip Hgw.
  unfold get_quote_price.
  rewrite (run_lift_Returned _ (base, quote)); [|by apply trading_pair_unpacks].
  unfold try_except.
  rewrite (get_quote_price_try_run _ _ _ _ _ _ _ _ _ _ _ Hct Hamount Hslip Hgw).
  rewrite run_bind. unfold connector_request, ask at 1. simpl.
  set (payload := quote_swap_payload _ _ _ _ _ _ _ _).
  set (this := self w).
  destruct (connector_response env _ gateway "get" _ "quote-swap" payload)
    as [resp|e].
  - rewrite parse_price_response_run. simpl.
    set (outcome := match resp !! "price" with Some _ => _ | None => _ end).
    assert (Hlog : count is_connector_request (parse_log resp) = 0)
      by (by apply count_parse_log).
    destruct outcome as [price|e].
    + exists (parse_log resp). simpl.
      by rewrite <- !app_assoc.
    + unfold except_CancelledError_Exception.
      destruct (is_CancelledError e); [|destruct (is_Exception e)]; run.
      * exists (parse_log resp). by rewrite <- !app_assoc.
      * eexists (parse_log resp ++ [_]). rewrite <- !app_assoc. simpl.
        split; [done|]. rewrite count_app, Hlog. done.
      * exists (parse_log resp). by rewrite <- !app_assoc.
  - unfold except_CancelledError_Exception.
    destruct (is_CancelledError e); [|destruct (is_Exception e)]; run.
    + exists []. by rewrite <- !app_assoc.
    + eexists [_]. rewrite <- !app_assoc. simpl. done.
    + exists []. by rewrite <- !app_assoc.
Qed.

Lemma quote_swap_payload_fields (network base quote : string)
    (amount_f : pyfloat) (side : TradeType) (slippage_f : option pyfloat)
    (pool_address : option string) (connector_type : ConnectorType) :
  let payload := quote_swap_payload network base quote amount_f side slippage_f
                   pool_address connector_type in
  payload !! "network" = Some (PStr network) ∧
  payload !! "baseToken" = Some (PStr base) ∧
  payload !! "quoteToken" = Some (PStr quote) ∧
  payload !! "amount" = Some (PFloat amount_f) ∧
  payload !! "side" = Some (PStr (name side)) ∧
  payload !! "slippagePct" = PFloat <$> slippage_f ∧
  payload !! "poolAddress" =
    (if in_CLMM_AMM connector_type then PStr <$> pool_address else None) ∧
  (dom payload : gset string) ⊆
    {[ "network"; "baseToken"; "quoteToken"; "amount"; "side";
       "slippagePct"; "poolAddress" ]}.
Proof.
  unfold quote_swap_payload.
  destruct slippage_f as [f|], pool_address as [pool|], connector_type;
    simpl; rewrite ?dom_insert_L, ?dom_empty_L;
    (split_and!; [reflexivity .. |]);
    intros k; rewrite !elem_of_union, !elem_of_singleton, elem_of_empty; tauto.
Qed.

Lemma float_opt_is_Some (x : option Decimal) (f : option pyfloat) :
  float_opt x = Returned f → (is_Some f ↔ x ≠ None).
Proof.
  destruct x as [d|]; simpl.
  - destruct (float d); simpl; [|done].
    intros [= <-]. split; [done | by eexists].
  - intros [= <-]. split; [by intros [? ?] | done].
Qed.

(** C2. For a trading pair [base-quote], [get_quote_price] sends to the
    "quote-swap" endpoint a request with the fields network, baseToken (the
    part before the dash), quoteToken (the part after it), amount (the float
    of the amount) and side ("BUY" when [is_buy], "SELL" otherwise), with
    slippagePct exactly when [slippage_pct] is not [None], with poolAddress
    exactly when [pool_address] is not [None] and the connector type is CLMM
    or AMM, and with no other field. *)
Theorem get_quote_price_request_fields
    (base quote : string) (is_buy : bool) (amount : Decimal)
    (slippage_pct : option Decimal) (pool_address : option string)
    (w : World) (connector_type : ConnectorType) (amount_f : pyfloat)
    (slippage_f : option pyfloat) (gateway : obj) :
  contains "-" base = false → contains "-" quote = false →
  get_connector_type env (connector_name (self w)) = Returned connector_type →
  float amount = Returned amount_f →
  float_opt slippage_pct = Returned slippage_f →
  gateway_instance env (trace w) = Returned gateway →
  ∃ (payload : gmap string param) (rest : list event),
    trace (snd (get_quote_price env (base +:+ "-" +:+ quote) is_buy amount
                  slippage_pct pool_address w)) =
    trace w ++
      EvGetGatewayInstance ::
      EvConnectorRequest gateway "get" (connector_name (self w)) "quote-swap"
        payload :: rest ∧
    count is_connector_request rest = 0 ∧
    payload !! "network" = Some (PStr (network (self w))) ∧
    payload !! "baseToken" = Some (PStr base) ∧
    payload !! "quoteToken" = Some (PStr quote) ∧
    payload !! "amount" = Some (PFloat amount_f) ∧
    payload !! "side" = Some (PStr (if is_buy then "BUY" else "SELL")) ∧
    payload !! "slippagePct" = PFloat <$> slippage_f ∧
    (is_Some (payload !! "slippagePct") ↔ slippage_pct ≠ None) ∧
    payload !! "poolAddress" =
      (if in_CLMM_AMM connector_type then PStr <$> pool_address else None) ∧
    (is_Some (payload !! "poolAddress") ↔
       pool_address ≠ None ∧ (connector_type = CLMM ∨ connector_type = AMM)) ∧
    (dom payload : gset string) ⊆
      {[ "network"; "baseToken"; "quoteToken"; "amount"; "side";
         "slippagePct"; "poolAddress" ]}.
Proof.
  intros Hb Hq Hct Hamount Hslip Hgw.
  destruct (get_quote_price_sends base quote is_buy amount slippage_pct
              pool_address w connector_type amount_f slippage_f gateway
              Hb Hq Hct Hamount Hslip Hgw) as (rest & Htrace & Hrest).
  eexists _, rest. split; [exact Htrace|]. split; [exact Hrest|].
  destruct (quote_swap_payload_fields (network (self w)) base quote amount_f
              (if is_buy then BUY else SELL) slippage_f pool_address
              connector_type)
    as (Hnetwork & Hbase & Hquote & Hamt & Hside & Hslippage & Hpool & Hdom).
  split_and!; try done.
  - rewrite Hside. by destruct is_buy.
  - rewrite Hslippage, fmap_is_Some. by apply float_opt_is_Some.
  - rewrite Hpool.
    destruct connector_type, pool_address as [pool|]; simpl;
      (split; [intros Hsome | intros [Hnone Hor]]);
      try (by destruct Hsome); try (by destruct Hor); try done;
      (split; [done | by eauto]).
Qed.

Lemma count_requests (t : list event) :
  count is_connector_request t =
  count is_quote_swap_request t + count is_other_request t.
Proof.
  induction t as [|ev t IH]; simpl; [done|]. rewrite IH.
  unfold is_other_request.
  destruct (is_connector_request ev) eqn:Hreq, (is_quote_swap_request ev) eqn:Hqs;
    simpl; try lia.
  by destruct ev.
Qed.

(** One run of the body of [get_quote_price] makes at most one request to
    the gateway, to the "quote-swap" endpoint; it makes exactly one when the
    trading pair has the form [base-quote], the request can be built and
    the gateway client is obtained. *)
Lemma get_quote_price_body_requests
    (trading_pair : string) (is_buy : bool) (amount : Decimal)
    (slippage_pct : option Decimal) (pool_address : option string) (w : World) :
  ∃ evs,
    trace (snd (get_quote_price env trading_pair is_buy amount slippage_pct
                  pool_address w)) = trace w ++ evs ∧
    count is_connector_request evs ≤ 1 ∧
    count is_quote_swap_request evs = count is_connector_request evs ∧
    ∀ base quote connector_type amount_f slippage_f gateway,
      unpack2 (split "-" trading_pair) = Returned (base, quote) →
      get_connector_type env (connector_name (self w)) = Returned connector_type →
      float amount = Returned amount_f →
      float_opt slippage_pct = Returned slippage_f →
      gateway_instance env (trace w) = Returned gateway →
      count is_quote_swap_request evs = 1.
Proof.
  destruct (get_quote_price_at_most is_connector_request 1
              ltac:(done) ltac:(done) ltac:(intros; simpl; lia)
              trading_pair is_buy amount slippage_pct pool_address w)
    as (evs & Htrace & Hone).
  destruct (get_quote_price_at_most is_other_request 0
              ltac:(done) ltac:(done) ltac:(done)
              trading_pair is_buy amount slippage_pct pool_address w)
    as (evs' & Htrace' & Hother).
  rewrite Htrace in Htrace'. apply app_inv_head in Htrace' as <-.
  assert (Hsame : count is_quote_swap_request evs =
                  count is_connector_request evs)
    by (rewrite (count_requests evs); lia).
  exists evs. split_and!; try done.
  intros base quote connector_type amount_f slippage_f gateway
    Hpair Hct Hamount Hslip Hgw.
  apply trading_pair_unpacks in Hpair as (-> & Hb & Hq).
  destruct (get_quote_price_sends base quote is_buy amount slippage_pct
              pool_address w connector_type amount_f slippage_f gateway
              Hb Hq Hct Hamount Hslip Hgw) as (rest & Hsent & Hrest).
  rewrite Htrace in Hsent. apply app_inv_head in Hsent as ->.
  rewrite Hsame. simpl. by rewrite Hrest.
Qed.

(** C7 (amended). One invocation of [get_quote_price], as its callers get
    it under [async_ttl_cache], makes at most one request to the gateway,
    to the "quote-swap" endpoint, and does not repeat it: none when the
    cache answers the invocation, and exactly one when the cache does not,
    the trading pair has the form [base-quote], the request can be built
    and the gateway client is obtained. *)
Theorem get_quote_price_single_request
    (cache : Cache) (trading_pair : string) (is_buy : bool) (amount : Decimal)
    (slippage_pct : option Decimal) (pool_address : option string) (w : World) :
  let held := cache (trace w) trading_pair is_buy amount slippage_pct
                pool_address in
  ∃ evs,
    trace (snd (cached_get_quote_price env cache trading_pair is_buy amount
                  slippage_pct pool_address w)) = trace w ++ evs ∧
    count is_connector_request evs ≤ 1 ∧
    count is_quote_swap_request evs = count is_connector_request evs ∧
    (is_Some held → evs = []) ∧
    (held = None →
     ∀ base quote connector_type amount_f slippage_f gateway,
       unpack2 (split "-" trading_pair) = Returned (base, quote) →
       get_connector_type env (connector_name (self w)) =
         Returned connector_type →
       float amount = Returned amount_f →
       float_opt slippage_pct = Returned slippage_f →
       gateway_instance env (trace w) = Returned gateway →
       count is_quote_swap_request evs = 1).
Proof.
  intros held. unfold cached_get_quote_price, async_ttl_cache.
  fold held. destruct held as [value|].
  - exists []. simpl. rewrite app_nil_r.
    split_and!; [done | lia | done | done | done].
  - destruct (get_quote_price_body_requests trading_pair is_buy amount
                slippage_pct pool_address w)
      as (evs & Htrace & Hone & Hsame & Hexact).
    exists evs. split_and!; [done | done | done | by intros [? ?] | done].
Qed.


(** ** Exceptions of a quote *)

(** An exception of the gateway request is an exception of the block. *)
Lemma get_quote_price_try_request_raises base quote side amount slippage_pct
    pool_address (w : World) (connector_type : ConnectorType)
    (amount_f : pyfloat) (slippage_f : option pyfloat) (gateway : obj)
    (e : exn) :
  get_connector_type env (connector_name (self w)) = Returned connector_type →
  float amount = Returned amount_f →
  float_opt slippage_pct = Returned slippage_f →
  gateway_instance env (trace w) = Returned gateway →
  let payload := quote_swap_payload (network (self w)) base quote amount_f side
                   slippage_f pool_address connector_type in
  connector_response env (trace w ++ [EvGetGatewayInstance]) gateway "get"
    (connector_name (self w)) "quote-swap" payload = Raised e →
  get_quote_price_try env base quote side amount slippage_pct pool_address w =
  (Raised e,
   log_call (EvConnectorRequest gateway "get" (connector_name (self w))
               "quote-swap" payload)
     (log_call EvGetGatewayInstance w)).
Proof.
  intros Hct Hamount Hslip Hgw payload Hresp.
  rewrite (get_quote_price_try_run _ _ _ _ _ _ _ _ _ _ _ Hct Hamount Hslip Hgw).
  rewrite run_bind. unfold connector_request, ask. simpl.
  fold payload. by rewrite Hresp.
Qed.

(** An exception of the parse of the response is an exception of the block. *)
Lemma get_quote_price_try_parse_raises base quote side amount slippage_pct
    pool_address (w : World) (connector_type : ConnectorType)
    (amount_f : pyfloat) (slippage_f : option pyfloat) (gateway : obj)
    (resp : gmap string pyobj) (price : pyobj) (e : exn) :
  get_connector_type env (connector_name (self w)) = Returned connector_type →
  float amount = Returned amount_f →
  float_opt slippage_pct = Returned slippage_f →
  gateway_instance env (trace w) = Returned gateway →
  let payload := quote_swap_payload (network (self w)) base quote amount_f side
                   slippage_f pool_address connector_type in
  connector_response env (trace w ++ [EvGetGatewayInstance]) gateway "get"
    (connector_name (self w)) "quote-swap" payload = Returned resp →
  resp !! "price" = Some price →
  Decimal_of_str (py_str price) = Raised e →
  get_quote_price_try env base quote side amount slippage_pct pool_address w =
  (Raised e,
   log_call (EvConnectorRequest gateway "get" (connector_name (self w))
               "quote-swap" payload)
     (log_call EvGetGatewayInstance w)).
Proof.
  intros Hct Hamount Hslip Hgw payload Hresp Hprice Hdecimal.
  rewrite (get_quote_price_try_run _ _ _ _ _ _ _ _ _ _ _ Hct Hamount Hslip Hgw).
  rewrite run_bind. unfold connector_request, ask. simpl.
  fold payload. rewrite Hresp, parse_price_response_run.
  unfold parse_log. rewrite Hprice, Hdecimal. simpl.
  unfold log_call. simpl. by rewrite app_nil_r.
Qed.

(** C3 (amended). When the block of [get_quote_price] that sends the
    request and parses the response raises an instance of [Exception] that
    is not a [CancelledError], the error is logged and the function returns
    [None]; a [CancelledError] is raised again as it is, with nothing
    logged, and so is any other exception that is not an instance of
    [Exception]. *)
Theorem get_quote_price_exceptions
    (trading_pair base quote : string) (is_buy : bool) (amount : Decimal)
    (slippage_pct : option Decimal) (pool_address : option string)
    (w w' : World) (e : exn) :
  unpack2 (split "-" trading_pair) = Returned (base, quote) →
  get_quote_price_try env base quote (if is_buy then BUY else SELL) amount
    slippage_pct pool_address w = (Raised e, w') →
  let r := get_quote_price env trading_pair is_buy amount slippage_pct
             pool_address w in
  (is_CancelledError e = false → is_Exception e = true →
     r = (Returned None,
          log_call (EvLog (LogErrorGettingQuotePrice trading_pair
                             (if is_buy then BUY else SELL) amount e)) w')) ∧
  (is_CancelledError e = true → r = (Raised e, w')) ∧
  (is_Exception e = false → r = (Raised e, w')).
Proof.
  intros Hpair Htry r. subst r.
  unfold get_quote_price.
  rewrite (run_lift_Returned _ (base, quote) _ _ Hpair).
  unfold try_except. rewrite Htry.
  unfold except_CancelledError_Exception.
  split_and!.
  - by intros -> ->.
  - by intros ->.
  - intros ->. by destruct (is_CancelledError e).
Qed.

(** ** Submitting an order *)

(** An access to [tx_handler] adds at most the lookup of the gateway client
    and leaves the other attributes as they are. *)
Lemma tx_handler_run (w : World) :
  let w' := snd (tx_handler env w) in
  ∃ lookup,
    (lookup = [] ∨ lookup = [EvGetGatewayInstance]) ∧
    trace w' = trace w ++ lookup ∧
    connector_name (self w') = connector_name (self w) ∧
    network (self w') = network (self w) ∧
    chain (self w') = chain (self w) ∧
    address (self w') = address (self w).
Proof.
  destruct (_tx_handler (self w)) as [h|] eqn:Hh.
  - rewrite (tx_handler_stored w h Hh). simpl.
    exists []. rewrite app_nil_r. by split_and!; [left|..].
  - exists [EvGetGatewayInstance].
    unfold tx_handler. run. rewrite Hh.
    destruct (gateway_instance env (trace w)); simpl; by split_and!; [right|..].
Qed.

Lemma _create_order_try_run trade_type order_id base quote amount
    (w w' : World) (gateway : obj) (amount_f : pyfloat) :
  tx_handler env w = (Returned (Some gateway), w') →
  float amount = Returned amount_f →
  _create_order_try env trade_type order_id base quote amount w =
  (execute_transaction env gateway (chain (self w)) (network (self w))
     (connector_name (self w)) "execute-swap"
     (execute_swap_params (address (self w)) base quote amount_f trade_type)
     order_id
   ≫= λ _, logger (LogSwapOrderSubmitted order_id)) w'.
Proof.
  intros Hhandler Hamount.
  destruct (tx_handler_run w) as (lookup & _ & _ & Hcn & Hnet & Hchain & Haddr).
  rewrite Hhandler in Hcn, Hnet, Hchain, Haddr. simpl in *.
  unfold _create_order_try, execute_swap_params.
  rewrite run_bind, Hhandler. run.
  by rewrite Hamount, Hcn, Hnet, Hchain, Haddr.
Qed.

Lemma execute_swap_params_fields (address base quote : string)
    (amount_f : pyfloat) (trade_type : TradeType) :
  let params := execute_swap_params address base quote amount_f trade_type in
  params !! "walletAddress" = Some (PStr address) ∧
  params !! "baseToken" = Some (PStr base) ∧
  params !! "quoteToken" = Some (PStr quote) ∧
  params !! "amount" = Some (PFloat amount_f) ∧
  params !! "side" = Some (PStr (name trade_type)) ∧
  params !! "price" = None ∧
  (dom params : gset string) =
    {[ "walletAddress"; "baseToken"; "quoteToken"; "amount"; "side" ]}.
Proof.
  unfold execute_swap_params. simpl.
  rewrite !dom_insert_L, dom_empty_L.
  split_and!; [reflexivity .. |].
  apply set_eq. intros k.
  rewrite !elem_of_union, !elem_of_singleton, elem_of_empty. tauto.
Qed.

(** C4. For an order on the pair [base-quote], [_create_order] submits to
    "execute-swap" the parameters walletAddress, baseToken, quoteToken,
    amount (the float of the quantized amount) and side (the name of the
    trade type), and no other; the quantized price goes to the order
    tracking and is not among them. *)
Theorem _create_order_submits
    (trade_type : TradeType) (order_id base quote : string)
    (amount price quantized_amount quantized_price : Decimal)
    (w : World) (gateway : obj) (amount_f : pyfloat) :
  let trading_pair := base +:+ "-" +:+ quote in
  let tracking :=
    EvStartTrackingOrder order_id trading_pair trade_type quantized_price
      quantized_amount in
  contains "-" base = false → contains "-" quote = false →
  quantize_order_amount env trading_pair amount = Returned quantized_amount →
  quantize_order_price env trading_pair price = Returned quantized_price →
  fst (tx_handler env (log_call tracking w)) = Returned (Some gateway) →
  float quantized_amount = Returned amount_f →
  ∃ (lookup rest : list event) (params : gmap string param),
    trace (snd (_create_order env trade_type order_id trading_pair amount
                  price w)) =
    trace w ++ [tracking] ++ lookup ++
      [EvExecuteTransaction gateway (chain (self w)) (network (self w))
         (connector_name (self w)) "execute-swap" params order_id] ++ rest ∧
    (lookup = [] ∨ lookup = [EvGetGatewayInstance]) ∧
    count is_execute_transaction rest = 0 ∧
    (dom params : gset string) =
      {[ "walletAddress"; "baseToken"; "quoteToken"; "amount"; "side" ]} ∧
    params !! "walletAddress" = Some (PStr (address (self w))) ∧
    params !! "baseToken" = Some (PStr base) ∧
    params !! "quoteToken" = Some (PStr quote) ∧
    params !! "amount" = Some (PFloat amount_f) ∧
    params !! "side" = Some (PStr (name trade_type)) ∧
    params !! "price" = None.
Proof.
  intros trading_pair tracking Hb Hq Hqa Hqp Hhandler Hamount.
  destruct (tx_handler_run (log_call tracking w))
    as (lookup & Hlookup & Htrace & _).
  destruct (tx_handler env (log_call tracking w)) as [o w1] eqn:Hrun.
  simpl in Hhandler, Htrace. subst o.
  destruct (execute_swap_params_fields (address (self w)) base quote amount_f
              trade_type)
    as (Hwallet & Hbase & Hquote & Hamt & Hside & Hprice & Hdom).
  set (params := execute_swap_params _ _ _ _ _) in *.
  assert (∃ rest,
    trace (snd (_create_order env trade_type order_id trading_pair amount
                  price w)) =
    trace w1 ++
      [EvExecuteTransaction gateway (chain (self w)) (network (self w))
         (connector_name (self w)) "execute-swap" params order_id] ++ rest ∧
    count is_execute_transaction rest = 0) as (rest & Hrest & Hcount).
  { unfold _create_order.
    rewrite (run_lift_Returned _ _ _ _ Hqa), (run_lift_Returned _ _ _ _ Hqp).
    rewrite (run_lift_Returned _ (base, quote));
      [|by apply trading_pair_unpacks].
    rewrite run_bind. unfold start_tracking_order, emit at 1. fold tracking.
    unfold try_except.
    rewrite (_create_order_try_run _ _ _ _ _ _ _ _ _ Hrun Hamount).
    simpl. fold params. rewrite run_bind.
    unfold execute_transaction, ask at 1.
    destruct (transaction_result env _ gateway _ _ _ "execute-swap" params
                order_id) as [[]|e].
    - run. eexists [_]. by rewrite <- app_assoc.
    - unfold except_CancelledError_Exception.
      destruct (is_CancelledError e); [|destruct (is_Exception e)]; run.
      + by exists [].
      + eexists [_]. by rewrite <- app_assoc.
      + by exists []. }
  exists lookup, rest, params.
  rewrite Hrest, Htrace. simpl. rewrite <- !app_assoc.
  by split_and!.
Qed.

(** The block of [_create_order] and its handlers only add to the trace. *)
Lemma _create_order_try_extends trade_type order_id trading_pair base quote
    amount :
  at_most (λ _, false) 0
    (try_except
       (_create_order_try env trade_type order_id base quote amount)
       (except_CancelledError_Exception
          (λ e, _handle_operation_failure order_id trading_pair
                  ("submitting " +:+ name trade_type +:+ " swap order") e))).
Proof.
  apply (at_most_try_except _ 0 0).
  - unfold _create_order_try.
    apply at_most_then; [by apply at_most_tx_handler|].
    intros handler. at_most_zero.
  - intros e. apply at_most_except. intros e'. apply at_most_emit.
Qed.

(** An exception of the submission is an exception of the block. *)
Lemma _create_order_try_submission_raises trade_type order_id base quote amount
    (w w' : World) (gateway : obj) (amount_f : pyfloat) (e : exn) :
  tx_handler env w = (Returned (Some gateway), w') →
  float amount = Returned amount_f →
  let params := execute_swap_params (address (self w)) base quote amount_f
                  trade_type in
  transaction_result env (trace w') gateway (chain (self w)) (network (self w))
    (connector_name (self w)) "execute-swap" params order_id = Raised e →
  _create_order_try env trade_type order_id base quote amount w =
  (Raised e,
   log_call (EvExecuteTransaction gateway (chain (self w)) (network (self w))
               (connector_name (self w)) "execute-swap" params order_id) w').
Proof.
  intros Hhandler Hamount params Hsubmit.
  rewrite (_create_order_try_run _ _ _ _ _ _ _ _ _ Hhandler Hamount).
  rewrite run_bind. unfold execute_transaction, ask.
  fold params. by rewrite Hsubmit.
Qed.

(** C6 (amended). [_create_order] starts the tracking of the order, with
    the quantized amount and price, before anything else it does, so before
    the submission.  When the block that submits the transaction raises an
    instance of [Exception] that is not a [CancelledError],
    [_handle_operation_failure] is called with the order id and that
    exception, and [_create_order] returns; a [CancelledError] is raised
    again, and so is any other exception that is not an instance of
    [Exception]. *)
Theorem _create_order_failure
    (trade_type : TradeType) (order_id trading_pair base quote : string)
    (amount price quantized_amount quantized_price : Decimal) (w : World) :
  quantize_order_amount env trading_pair amount = Returned quantized_amount →
  quantize_order_price env trading_pair price = Returned quantized_price →
  unpack2 (split "-" trading_pair) = Returned (base, quote) →
  let tracking :=
    EvStartTrackingOrder order_id trading_pair trade_type quantized_price
      quantized_amount in
  let r := _create_order env trade_type order_id trading_pair amount price w in
  (∃ rest, trace (snd r) = trace w ++ tracking :: rest) ∧
  ∀ (e : exn) (w' : World),
    _create_order_try env trade_type order_id base quote quantized_amount
      (log_call tracking w) = (Raised e, w') →
    (is_CancelledError e = false → is_Exception e = true →
       r = (Returned tt,
            log_call (EvHandleOperationFailure order_id trading_pair
                        ("submitting " +:+ name trade_type +:+ " swap order") e)
              w')) ∧
    (is_CancelledError e = true → r = (Raised e, w')) ∧
    (is_Exception e = false → r = (Raised e, w')).
Proof.
  intros Hqa Hqp Hpair tracking r.
  assert (Hr : r =
    try_except
      (_create_order_try env trade_type order_id base quote quantized_amount)
      (except_CancelledError_Exception
         (λ e, _handle_operation_failure order_id trading_pair
                 ("submitting " +:+ name trade_type +:+ " swap order") e))
      (log_call tracking w)).
  { subst r. unfold _create_order.
    rewrite (run_lift_Returned _ _ _ _ Hqa), (run_lift_Returned _ _ _ _ Hqp).
    by rewrite (run_lift_Returned _ (base, quote) _ _ Hpair). }
  rewrite Hr. split.
  - destruct (_create_order_try_extends trade_type order_id trading_pair base
                quote quantized_amount (log_call tracking w))
      as (rest & Htrace & _).
    exists rest. rewrite Htrace. simpl. by rewrite <- app_assoc.
  - intros e w' Htry. unfold try_except. rewrite Htry.
    unfold except_CancelledError_Exception.
    split_and!.
    + by intros -> ->.
    + by intros ->.
    + intros ->. by destruct (is_CancelledError e).
Qed.

(** * Further properties of the class *)

(** ** The exceptions that leave a method *)

(** What leaves a [try] statement whose [except Exception] clause returns is
    a [CancelledError] or an exception that is no instance of [Exception]. *)
Lemma try_except_Raised {A} (body : M A) (on_exception : exn → M A)
    (w w' : World) (e : exn) :
  (∀ e0 w0, ∃ a w1, on_exception e0 w0 = (Returned a, w1)) →
  try_except body (except_CancelledError_Exception on_exception) w =
    (Raised e, w') →
  is_CancelledError e = true ∨ is_Exception e = false.
Proof.
  intros Hreturns. unfold try_except, except_CancelledError_Exception.
  destruct (body w) as [[a|e0] w0]; [done|].
  destruct (is_CancelledError e0) eqn:Hcancel.
  { intros [= <- _]. by left. }
  destruct (is_Exception e0) eqn:Hexc.
  - destruct (Hreturns e0 w0) as (a & w1 & ->). done.
  - intros [= <- _]. by right.
Qed.

Lemma split_length (sep : ascii) (s : string) :
  length (split sep s) = S (occurrences sep s).
Proof.
  induction s as [|c r IH]; simpl; [done|].
  destruct (Ascii.eqb c sep); simpl; [by rewrite IH|].
  destruct (split sep r) as [|piece pieces] eqn:Hr.
  - by destruct (split_not_nil sep r).
  - simpl in *. done.
Qed.

Lemma unpack2_length (parts : list string) :
  (∃ a b, unpack2 parts = Returned (a, b)) ↔ length parts = 2.
Proof.
  split.
  - intros (a & b & ->%unpack2_Returned). done.
  - destruct parts as [|a [|b [|c rest]]]; simpl; try done.
    intros _. by exists a, b.
Qed.

(** A quote that raises an instance of [Exception] raised the [ValueError]
    of the unpacking, and did nothing else. *)
Lemma get_quote_price_Raised (trading_pair : string) (is_buy : bool)
    (amount : Decimal) (slippage_pct : option Decimal)
    (pool_address : option string) (w w' : World) (e : exn) :
  get_quote_price env trading_pair is_buy amount slippage_pct pool_address w =
    (Raised e, w') →
  (unpack2 (split "-" trading_pair) = Raised e ∧ w' = w) ∨
  ((∃ base quote, unpack2 (split "-" trading_pair) = Returned (base, quote)) ∧
   (is_CancelledError e = true ∨ is_Exception e = false)).
Proof.
  unfold get_quote_price. rewrite run_bind. unfold lift at 1.
  destruct (unpack2 (split "-" trading_pair)) as [[base quote]|e0].
  - intros Hrun. right. split; [by exists base, quote|].
    apply (try_except_Raised _ _ _ _ _ ltac:(by eexists _, _) Hrun).
  - intros [= <- <-]. by left.
Qed.

(** X1. [get_quote_price] raises a [ValueError] exactly when the trading
    pair does not hold exactly one "-" (the empty string, a pair without a
    dash, a token with a dash of its own); it has then made no call and
    logged nothing. *)
Theorem get_quote_price_ValueError_iff_dashes
    (trading_pair : string) (is_buy : bool) (amount : Decimal)
    (slippage_pct : option Decimal) (pool_address : option string) (w : World) :
  let r := get_quote_price env trading_pair is_buy amount slippage_pct
             pool_address w in
  ((∃ msg, fst r = Raised (Exn ValueError msg)) ↔
   occurrences "-" trading_pair ≠ 1) ∧
  (occurrences "-" trading_pair ≠ 1 → snd r = w).
Proof.
  intros r.
  assert (Hbad : occurrences "-" trading_pair ≠ 1 →
                 ∃ msg, r = (Raised (Exn ValueError msg), w)).
  { intros Hocc.
    destruct (unpack2_Raised (split "-" trading_pair)) as [msg Hmsg].
    { rewrite split_length. lia. }
    exists msg. subst r. unfold get_quote_price.
    by rewrite (run_lift_Raised _ _ _ _ Hmsg). }
  split; [split|].
  - intros [msg Hmsg] Hocc.
    destruct r as [o w'] eqn:Hr. simpl in Hmsg. subst o.
    apply get_quote_price_Raised in Hr as [[Hunpack _]|[_ Hclass]].
    + assert (Hlen : length (split "-" trading_pair) = 2)
        by (rewrite split_length; lia).
      apply unpack2_length in Hlen as (a & b & Hab). congruence.
    + by destruct Hclass.
  - intros Hocc. destruct (Hbad Hocc) as [msg ->]. by exists msg.
  - intros Hocc. by destruct (Hbad Hocc) as [msg ->].
Qed.

(** X2. An exception that leaves [get_quote_price] is the exception of the
    unpacking of the trading pair, raised before any call or log, or a
    [CancelledError], or an exception that is no instance of [Exception]:
    no [Exception] of the request, of the conversions or of the parse
    leaves it. *)
Theorem get_quote_price_escaping_exceptions
    (trading_pair : string) (is_buy : bool) (amount : Decimal)
    (slippage_pct : option Decimal) (pool_address : option string)
    (w : World) (e : exn) :
  let r := get_quote_price env trading_pair is_buy amount slippage_pct
             pool_address w in
  fst r = Raised e →
  is_Exception e = true → is_CancelledError e = false →
  (∃ msg, e = Exn ValueError msg) ∧
  length (split "-" trading_pair) ≠ 2 ∧
  snd r = w.
Proof.
  intros r Hr Hexc Hcancel.
  destruct r as [o w'] eqn:Hrun. simpl in Hr. subst o.
  apply get_quote_price_Raised in Hrun as [[Hunpack ->]|[_ Hclass]].
  - assert (Hlen : length (split "-" trading_pair) ≠ 2).
    { intros (a & b & Hab)%unpack2_length. congruence. }
    destruct (unpack2_Raised _ Hlen) as [msg Hmsg].
    split_and!; [|done..]. exists msg. congruence.
  - destruct Hclass; congruence.
Qed.

(** X3. When [quantize_order_amount], [quantize_order_price] or the
    unpacking of the trading pair raises, whatever the exception,
    [_create_order] raises it and has done nothing: these run before the
    tracking and outside the [try], so the order is not tracked, nothing is
    submitted and no failure is reported.  With both quantizations
    returning, this is what happens to a trading pair that does not hold
    exactly one "-". *)
Theorem _create_order_early_failure
    (trade_type : TradeType) (order_id trading_pair : string)
    (amount price : Decimal) (w : World) :
  let r := _create_order env trade_type order_id trading_pair amount price w in
  (∀ e, quantize_order_amount env trading_pair amount = Raised e →
        r = (Raised e, w)) ∧
  (∀ quantized_amount,
     quantize_order_amount env trading_pair amount =
       Returned quantized_amount →
     (∀ e, quantize_order_price env trading_pair price = Raised e →
           r = (Raised e, w)) ∧
     (∀ quantized_price,
        quantize_order_price env trading_pair price =
          Returned quantized_price →
        (∀ e, unpack2 (split "-" trading_pair) = Raised e →
              r = (Raised e, w)) ∧
        (occurrences "-" trading_pair ≠ 1 →
         ∃ msg, r = (Raised (Exn ValueError msg), w)))).
Proof.
  intros r. subst r. unfold _create_order. split.
  { intros e He. by rewrite (run_lift_Raised _ _ _ _ He). }
  intros quantized_amount Hqa. rewrite (run_lift_Returned _ _ _ _ Hqa). split.
  { intros e He. by rewrite (run_lift_Raised _ _ _ _ He). }
  intros quantized_price Hqp. rewrite (run_lift_Returned _ _ _ _ Hqp).
  assert (Hraise : ∀ e, unpack2 (split "-" trading_pair) = Raised e →
    (lift (unpack2 (split "-" trading_pair)) ≫=
       λ '(base, quote),
         start_tracking_order order_id trading_pair trade_type quantized_price
           quantized_amount;;
         try_except
           (_create_order_try env trade_type order_id base quote
              quantized_amount)
           (except_CancelledError_Exception
              (λ e, _handle_operation_failure order_id trading_pair
                      ("submitting " +:+ name trade_type +:+ " swap order")
                      e))) w = (Raised e, w)).
  { intros e He. by rewrite (run_lift_Raised _ _ _ _ He). }
  split; [exact Hraise|].
  intros Hocc.
  destruct (unpack2_Raised (split "-" trading_pair)) as [msg Hmsg].
  { rewrite split_length. lia. }
  exists msg. by apply Hraise.
Qed.

(** ** Extra keyword arguments of an order *)

(** X4. [place_order] with any extra keyword argument raises a [TypeError]:
    [_create_order] takes none.  The order id has been created by then;
    no coroutine is handed to the event loop. *)
Theorem place_order_request_args
    (is_buy : bool) (trading_pair : string) (amount price : Decimal)
    (request_args : list (string * pyobj)) (w : World) (order_id : string) :
  let side := if is_buy then BUY else SELL in
  request_args ≠ [] →
  market_order_id env (trace w) side trading_pair = Returned order_id →
  let r := place_order env is_buy trading_pair amount price request_args w in
  (∃ msg, fst r = Raised (Exn TypeError msg)) ∧
  snd r = log_call (EvCreateMarketOrderId side trading_pair) w.
Proof.
  intros side Hargs Hid r. subst r. unfold place_order. fold side.
  destruct request_args as [|arg args]; [done|].
  run. rewrite Hid. split; [by eexists | done].
Qed.

(** ** A transaction handler that cannot be obtained *)

(** X5. When [_get_gateway_instance()] raises on an access to [tx_handler],
    the exception leaves the property and [_tx_handler] stays [None]: the
    failure is not remembered, and the next access calls
    [_get_gateway_instance()] again and stores what it returns. *)
Theorem tx_handler_failure_not_stored (w : World) (e : exn) (h : obj) :
  _tx_handler (self w) = None →
  gateway_instance env (trace w) = Raised e →
  let failed := tx_handler env w in
  fst failed = Raised e ∧
  _tx_handler (self (snd failed)) = None ∧
  trace (snd failed) = trace w ++ [EvGetGatewayInstance] ∧
  (gateway_instance env (trace (snd failed)) = Returned h →
   let again := tx_handler env (snd failed) in
   fst again = Returned (Some h) ∧
   _tx_handler (self (snd again)) = Some h ∧
   trace (snd again) =
     trace w ++ [EvGetGatewayInstance; EvGetGatewayInstance]).
Proof.
  intros Hnone Hraise failed.
  assert (Hfailed : failed =
    (Raised e, {| self := self w; trace := trace w ++ [EvGetGatewayInstance] |})).
  { subst failed. unfold tx_handler. run. by rewrite Hnone, Hraise. }
  rewrite Hfailed. simpl. split_and!; try done.
  intros Hgw.
  rewrite (tx_handler_first_access _ h); [|done|done].
  simpl. by rewrite <- app_assoc.
Qed.

(** ** The attributes a call leaves alone *)

Section Frame.

Variable R : GatewaySwap → GatewaySwap → Prop.
Hypothesis R_refl : ∀ this, R this this.
Hypothesis R_trans : ∀ a b c, R a b → R b c → R a c.

Lemma preserves_ret {A} (a : A) : preserves R (ret a).
Proof. intros w. apply R_refl. Qed.

Lemma preserves_raise {A} (e : exn) : preserves R (@raise _ A e).
Proof. intros w. apply R_refl. Qed.

Lemma preserves_lift {A} (o : outcome A) : preserves R (lift o).
Proof. intros w. apply R_refl. Qed.

Lemma preserves_get_self : preserves R get_self.
Proof. intros w. apply R_refl. Qed.

Lemma preserves_emit (ev : event) : preserves R (emit ev).
Proof. intros w. apply R_refl. Qed.

Lemma preserves_ask {A} (ev : event) (answer : list event → outcome A) :
  preserves R (ask ev answer).
Proof. intros w. apply R_refl. Qed.

Lemma preserves_bind {A B} (m : M A) (k : A → M B) :
  preserves R m → (∀ a, preserves R (k a)) → preserves R (m ≫= k).
Proof.
  intros Hm Hk w. rewrite run_bind. specialize (Hm w).
  destruct (m w) as [[a|e] w']; simpl in *; [|done].
  eapply R_trans; [exact Hm | apply Hk].
Qed.

Lemma preserves_try_except {A} (body : M A) (handler : exn → M A) :
  preserves R body → (∀ e, preserves R (handler e)) →
  preserves R (try_except body handler).
Proof.
  intros Hm Hk w. unfold try_except. specialize (Hm w).
  destruct (body w) as [[a|e] w']; simpl in *; [done|].
  eapply R_trans; [exact Hm | apply Hk].
Qed.

Lemma preserves_except {A} (on_exception : exn → M A) (e : exn) :
  (∀ e, preserves R (on_exception e)) →
  preserves R (except_CancelledError_Exception on_exception e).
Proof.
  intros H. unfold except_CancelledError_Exception.
  destruct (is_CancelledError e); [apply preserves_raise|].
  destruct (is_Exception e); [apply H | apply preserves_raise].
Qed.

End Frame.

Ltac preserves_with known :=
  repeat first
    [ known
    | by apply preserves_ret | by apply preserves_raise
    | by apply preserves_lift | by apply preserves_get_self
    | by apply preserves_emit | by apply preserves_ask
    | apply preserves_bind; [done | | intros ?]
    | apply preserves_try_except; [done | | intros ?]
    | apply preserves_except; [done | intros ?]
    | match goal with
      | |- preserves _ (match ?x with _ => _ end) => destruct x
      end ].

Ltac preserves := preserves_with fail.

Lemma same_connector_refl (this : GatewaySwap) : same_connector this this.
Proof. by repeat split. Qed.

Lemma same_connector_trans (a b c : GatewaySwap) :
  same_connector a b → same_connector b c → same_connector a c.
Proof.
  intros (H1 & H2 & H3 & H4) (H1' & H2' & H3' & H4').
  repeat split; congruence.
Qed.

Lemma preserves_same_connector_tx_handler :
  preserves same_connector (tx_handler env).
Proof.
  intros w. destruct (tx_handler_run w) as (lookup & _ & _ & H).
  exact H.
Qed.

Lemma preserves_get_quote_price (R : GatewaySwap → GatewaySwap → Prop)
    trading_pair is_buy amount slippage_pct pool_address :
  (∀ this, R this this) → (∀ a b c, R a b → R b c → R a c) →
  preserves R
    (get_quote_price env trading_pair is_buy amount slippage_pct pool_address).
Proof.
  intros Hrefl Htrans.
  unfold get_quote_price, get_quote_price_try, parse_price_response, logger.
  preserves.
Qed.

Lemma preserves_place_order (R : GatewaySwap → GatewaySwap → Prop)
    is_buy trading_pair amount price request_args :
  (∀ this, R this this) → (∀ a b c, R a b → R b c → R a c) →
  preserves R (place_order env is_buy trading_pair amount price request_args).
Proof.
  intros Hrefl Htrans.
  unfold place_order, create_market_order_id, safe_ensure_future. preserves.
Qed.

Lemma preserves_parse_price_response (R : GatewaySwap → GatewaySwap → Prop)
    base quote amount side price_response process_exception :
  (∀ this, R this this) →
  preserves R
    (parse_price_response base quote amount side price_response
       process_exception).
Proof.
  intros Hrefl w. rewrite parse_price_response_run. apply Hrefl.
Qed.

Lemma preserves_same_connector_create_order trade_type order_id trading_pair
    amount price :
  preserves same_connector
    (_create_order env trade_type order_id trading_pair amount price).
Proof.
  pose proof same_connector_refl. pose proof same_connector_trans.
  unfold _create_order, _create_order_try, start_tracking_order,
    _handle_operation_failure, execute_transaction, logger.
  preserves_with ltac:(apply preserves_same_connector_tx_handler).
Qed.

Lemma after_same_connector (c : method_call) (w : World) :
  same_connector (self w) (self (after env c w)).
Proof.
  pose proof same_connector_refl. pose proof same_connector_trans.
  destruct c; simpl.
  - apply preserves_same_connector_tx_handler.
  - by apply (preserves_get_quote_price same_connector).
  - by apply (preserves_get_quote_price same_connector).
  - by apply (preserves_parse_price_response same_connector).
  - by apply (preserves_place_order same_connector).
  - by apply (preserves_place_order same_connector).
  - by apply (preserves_place_order same_connector).
  - apply preserves_same_connector_create_order.
Qed.

Lemma after_same_self (c : method_call) (w : World) :
  reads_tx_handler c = false → self (after env c w) = self w.
Proof.
  assert (Htrans : ∀ a b c : GatewaySwap, b = a → c = b → c = a)
    by congruence.
  destruct c; simpl; try done; intros _.
  - by apply (preserves_get_quote_price (λ a b, b = a)).
  - by apply (preserves_get_quote_price (λ a b, b = a)).
  - by apply (preserves_parse_price_response (λ a b, b = a)).
  - by apply (preserves_place_order (λ a b, b = a)).
  - by apply (preserves_place_order (λ a b, b = a)).
  - by apply (preserves_place_order (λ a b, b = a)).
Qed.

(** X6. No sequence of calls on the object changes its connector name,
    network, chain or wallet address; and the calls that do not read the
    property [tx_handler] (the quotes, the parse, [buy], [sell],
    [place_order]) leave [_tx_handler] as it is too: a quote obtains the
    gateway client by itself and never fills the stored handler. *)
Theorem calls_keep_attributes (calls : list method_call) (w : World) :
  same_connector (self w) (self (after_all env calls w)) ∧
  (forallb (λ c, negb (reads_tx_handler c)) calls = true →
   self (after_all env calls w) = self w).
Proof.
  split.
  - revert w. induction calls as [|c calls IH]; intros w; simpl.
    + apply same_connector_refl.
    + eapply same_connector_trans; [apply after_same_connector | apply IH].
  - revert w. induction calls as [|c calls IH]; intros w; simpl; [done|].
    intros [Hc Hcalls]%andb_prop.
    rewrite (IH _ Hcalls). apply after_same_self.
    by destruct (reads_tx_handler c).
Qed.

(** ** The value of a quote *)

(** X7. When the request of a quote is answered with a dictionary,
    [get_quote_price] returns the decimal of its "price" entry, and the
    request is all it has done: nothing is logged.  When the dictionary has
    no "price" entry it returns [None] after one record for the logger,
    which is not the record of an error of the quote.  When the entry is
    there and [Decimal] rejects it, it returns [None] after the record of
    that error. *)
Theorem get_quote_price_returns_price
    (base quote : string) (is_buy : bool) (amount : Decimal)
    (slippage_pct : option Decimal) (pool_address : option string)
    (w : World) (connector_type : ConnectorType) (amount_f : pyfloat)
    (slippage_f : option pyfloat) (gateway : obj)
    (resp : gmap string pyobj) :
  let payload :=
    quote_swap_payload (network (self w)) base quote amount_f
      (if is_buy then BUY else SELL) slippage_f pool_address connector_type in
  let request :=
    EvConnectorRequest gateway "get" (connector_name (self w)) "quote-swap"
      payload in
  contains "-" base = false → contains "-" quote = false →
  get_connector_type env (connector_name (self w)) = Returned connector_type →
  float amount = Returned amount_f →
  float_opt slippage_pct = Returned slippage_f →
  gateway_instance env (trace w) = Returned gateway →
  connector_response env (trace w ++ [EvGetGatewayInstance]) gateway "get"
    (connector_name (self w)) "quote-swap" payload = Returned resp →
  let r := get_quote_price env (base +:+ "-" +:+ quote) is_buy amount
             slippage_pct pool_address w in
  (∀ p d,
     resp !! "price" = Some p → Decimal_of_str (py_str p) = Returned d →
     r = (Returned (Some d),
          {| self := self w;
             trace := trace w ++ [EvGetGatewayInstance; request] |})) ∧
  (resp !! "price" = None →
   ∃ record,
     r = (Returned None,
          {| self := self w;
             trace := trace w ++
                      [EvGetGatewayInstance; request; EvLog record] |}) ∧
     ∀ trading_pair side amount' e,
       record ≠ LogErrorGettingQuotePrice trading_pair side amount' e) ∧
  (∀ p e,
     resp !! "price" = Some p → Decimal_of_str (py_str p) = Raised e →
     is_Exception e = true → is_CancelledError e = false →
     r = (Returned None,
          {| self := self w;
             trace := trace w ++
                      [EvGetGatewayInstance; request;
                       EvLog (LogErrorGettingQuotePrice
                                (base +:+ "-" +:+ quote)
                                (if is_buy then BUY else SELL) amount e)] |})).
Proof.
  intros payload request Hb Hq Hct Hamount Hslip Hgw Hresp r.
  assert (Hr : r =
    try_except
      (connector_request env gateway "get" (connector_name (self w))
         "quote-swap" payload
       ≫= λ resp, parse_price_response base quote amount
                    (if is_buy then BUY else SELL) resp true)
      (except_CancelledError_Exception
         (λ e, logger (LogErrorGettingQuotePrice (base +:+ "-" +:+ quote)
                         (if is_buy then BUY else SELL) amount e);;
               ret None))
      (log_call EvGetGatewayInstance w)).
  { subst r. unfold get_quote_price.
    rewrite (run_lift_Returned _ (base, quote));
      [|by apply trading_pair_unpacks].
    unfold try_except.
    by rewrite (get_quote_price_try_run _ _ _ _ _ _ _ _ _ _ _
                  Hct Hamount Hslip Hgw). }
  rewrite Hr. unfold try_except. rewrite run_bind.
  unfold connector_request, ask at 1. simpl. rewrite Hresp.
  rewrite parse_price_response_run. unfold parse_log. simpl.
  split_and!.
  - intros p d -> ->. simpl. by rewrite app_nil_r, <- app_assoc.
  - intros ->.
    destruct (resp !! "info") as [info|]; eexists;
      (split; [by rewrite <- !app_assoc | done]).
  - intros p e -> -> Hexc Hcancel. simpl.
    unfold except_CancelledError_Exception. rewrite Hcancel, Hexc.
    run. by rewrite app_nil_r, <- !app_assoc.
Qed.

(** ** What a quote does and does not send *)

(** X8. A quote is read-only for the orders: whatever the trading pair,
    the gateway and the state, [get_quote_price] creates no order id, hands
    nothing to the event loop, starts no tracking, submits no transaction
    and reports no failure of an operation. *)
Theorem get_quote_price_no_order_event
    (trading_pair : string) (is_buy : bool) (amount : Decimal)
    (slippage_pct : option Decimal) (pool_address : option string) (w : World) :
  ∃ evs,
    trace (snd (get_quote_price env trading_pair is_buy amount slippage_pct
                  pool_address w)) = trace w ++ evs ∧
    count is_order_event evs = 0.
Proof.
  destruct (get_quote_price_at_most is_order_event 0
              ltac:(done) ltac:(done) ltac:(done)
              trading_pair is_buy amount slippage_pct pool_address w)
    as (evs & Htrace & Hnone).
  exists evs. split; [done | lia].
Qed.

Lemma count_zero_elem_of (p : event → bool) (evs : list event) (ev : event) :
  count p evs = 0 → ev ∈ evs → p ev = false.
Proof.
  induction evs as [|ev' evs IH]; simpl; intros Hcount Hin.
  - by apply elem_of_nil in Hin.
  - apply elem_of_cons in Hin as [->|Hin].
    + destruct (p ev'); [lia | done].
    + apply IH; [lia | done].
Qed.

(** The block of a quote either gets to the request, or raises before any
    call, or raises when it looks for the gateway client. *)
Lemma get_quote_price_try_cases base quote side amount slippage_pct
    pool_address (w : World) :
  (∃ connector_type amount_f slippage_f gateway,
     get_connector_type env (connector_name (self w)) = Returned connector_type ∧
     float amount = Returned amount_f ∧
     float_opt slippage_pct = Returned slippage_f ∧
     gateway_instance env (trace w) = Returned gateway) ∨
  (∃ e, get_quote_price_try env base quote side amount slippage_pct
          pool_address w = (Raised e, w)) ∨
  (∃ e, get_quote_price_try env base quote side amount slippage_pct
          pool_address w = (Raised e, log_call EvGetGatewayInstance w)).
Proof.
  unfold get_quote_price_try. run.
  destruct (get_connector_type env (connector_name (self w))) as [ct|e];
    [|right; left; by exists e].
  destruct (float amount) as [amount_f|e]; [|right; left; by exists e].
  destruct slippage_pct as [s|]; simpl.
  - destruct (float s) as [slippage_f|e]; [|right; left; by exists e].
    destruct (gateway_instance env (trace w)) as [gateway|e];
      [|right; right; by exists e].
    left. by exists ct, amount_f, (Some slippage_f), gateway.
  - destruct (gateway_instance env (trace w)) as [gateway|e];
      [|right; right; by exists e].
    left. by exists ct, amount_f, None, gateway.
Qed.

(** The handlers of a quote make no request. *)
Lemma get_quote_price_except_no_request trading_pair side amount (e : exn)
    (w : World) :
  ∃ evs,
    trace (snd (except_CancelledError_Exception
                  (λ e, logger (LogErrorGettingQuotePrice trading_pair side
                                  amount e);;
                        ret (None : option Decimal)) e w)) = trace w ++ evs ∧
    count is_connector_request evs = 0.
Proof.
  assert (H : at_most is_connector_request 0
    (except_CancelledError_Exception
       (λ e, logger (LogErrorGettingQuotePrice trading_pair side amount e);;
             ret (None : option Decimal)) e)).
  { apply at_most_except. intros e'.
    apply at_most_then; [by apply at_most_emit_uncounted|].
    intros _. apply at_most_ret. }
  destruct (H w) as (evs & Htrace & Hcount).
  exists evs. split; [done | lia].
Qed.

(** X9. Whatever the gateway answers and wherever the run stops, a request
    that [get_quote_price] has made is a "get" on "quote-swap" for the
    connector and the network of the object, whose baseToken and quoteToken
    are the two parts of the trading pair around its dash and whose side is
    the one asked for. *)
Theorem get_quote_price_request_well_formed
    (trading_pair : string) (is_buy : bool) (amount : Decimal)
    (slippage_pct : option Decimal) (pool_address : option string)
    (w : World) (evs : list event) (ev : event) :
  trace (snd (get_quote_price env trading_pair is_buy amount slippage_pct
                pool_address w)) = trace w ++ evs →
  ev ∈ evs → is_connector_request ev = true →
  ∃ gateway payload base quote,
    ev = EvConnectorRequest gateway "get" (connector_name (self w))
           "quote-swap" payload ∧
    trading_pair = base +:+ "-" +:+ quote ∧
    payload !! "network" = Some (PStr (network (self w))) ∧
    payload !! "baseToken" = Some (PStr base) ∧
    payload !! "quoteToken" = Some (PStr quote) ∧
    payload !! "side" = Some (PStr (if is_buy then "BUY" else "SELL")).
Proof.
  intros Htrace Hin Hreq.
  assert (Hnone : ∀ evs', trace w ++ evs = trace w ++ evs' →
                          count is_connector_request evs' = 0 → False).
  { intros evs' <-%app_inv_head Hcount.
    rewrite (count_zero_elem_of _ _ _ Hcount Hin) in Hreq. done. }
  revert Htrace. unfold get_quote_price. rewrite run_bind. unfold lift at 1.
  destruct (unpack2 (split "-" trading_pair)) as [[base quote]|e0] eqn:Hpair.
  2: { simpl. intros Htrace. destruct (Hnone []); [|done].
       by rewrite app_nil_r. }
  apply trading_pair_unpacks in Hpair as (-> & Hb & Hq).
  destruct (get_quote_price_try_cases base quote (if is_buy then BUY else SELL)
              amount slippage_pct pool_address w)
    as [(ct & amount_f & slippage_f & gateway & Hct & Hamount & Hslip & Hgw)
       |[[e Htry]|[e Htry]]].
  - intros Htrace.
    destruct (get_quote_price_sends base quote is_buy amount slippage_pct
                pool_address w ct amount_f slippage_f gateway
                Hb Hq Hct Hamount Hslip Hgw) as (rest & Hsent & Hrest).
    unfold get_quote_price in Hsent.
    rewrite (run_lift_Returned _ (base, quote)) in Hsent;
      [|by apply trading_pair_unpacks].
    rewrite Hsent in Htrace. apply app_inv_head in Htrace as <-.
    apply elem_of_cons in Hin as [->|Hin]; [done|].
    apply elem_of_cons in Hin as [->|Hin].
    + destruct (quote_swap_payload_fields (network (self w)) base quote
                  amount_f (if is_buy then BUY else SELL) slippage_f
                  pool_address ct)
        as (Hnetwork & Hbase & Hquote & _ & Hside & _).
      eexists gateway, _, base, quote. split_and!; try done.
      rewrite Hside. by destruct is_buy.
    + by rewrite (count_zero_elem_of _ _ _ Hrest Hin) in Hreq.
  - unfold try_except. rewrite Htry. intros Htrace.
    destruct (get_quote_price_except_no_request (base +:+ "-" +:+ quote)
                (if is_buy then BUY else SELL) amount e w)
      as (evs' & Hevs' & Hcount).
    rewrite Hevs' in Htrace. by destruct (Hnone evs').
  - unfold try_except. rewrite Htry. intros Htrace.
    destruct (get_quote_price_except_no_request (base +:+ "-" +:+ quote)
                (if is_buy then BUY else SELL) amount e
                (log_call EvGetGatewayInstance w))
      as (evs' & Hevs' & Hcount).
    rewrite Hevs' in Htrace. simpl in Htrace. rewrite <- app_assoc in Htrace.
    destruct (Hnone ([EvGetGatewayInstance] ++ evs')); [done|].
    simpl. done.
Qed.

(** X10. The request of [get_order_price] has the five fields network,
    baseToken, quoteToken, amount and side and no other: it carries neither
    a slippage nor a pool address, whatever the type of the connector. *)
Theorem get_order_price_request_fields
    (base quote : string) (is_buy : bool) (amount : Decimal)
    (w : World) (connector_type : ConnectorType) (amount_f : pyfloat)
    (gateway : obj) :
  contains "-" base = false → contains "-" quote = false →
  get_connector_type env (connector_name (self w)) = Returned connector_type →
  float amount = Returned amount_f →
  gateway_instance env (trace w) = Returned gateway →
  ∃ (payload : gmap string param) (rest : list event),
    trace (snd (get_order_price env (base +:+ "-" +:+ quote) is_buy amount w)) =
    trace w ++
      EvGetGatewayInstance ::
      EvConnectorRequest gateway "get" (connector_name (self w)) "quote-swap"
        payload :: rest ∧
    (dom payload : gset string) =
      {[ "network"; "baseToken"; "quoteToken"; "amount"; "side" ]} ∧
    payload !! "amount" = Some (PFloat amount_f).
Proof.
  intros Hb Hq Hct Hamount Hgw.
  destruct (get_quote_price_sends base quote is_buy amount None None w
              connector_type amount_f None gateway Hb Hq Hct Hamount
              eq_refl Hgw) as (rest & Htrace & _).
  eexists _, rest. split; [exact Htrace|].
  unfold quote_swap_payload.
  destruct connector_type; simpl;
    rewrite !dom_insert_L, dom_empty_L;
    (split; [|reflexivity]);
    apply set_eq; intros k;
    rewrite !elem_of_union, !elem_of_singleton, elem_of_empty; tauto.
Qed.

(** ** What an order does and does not do *)

Section OrderEvents.

Variable p : event → bool.
Variables nt ng nx nl nf : nat.
Hypothesis p_tracking :
  ∀ order_id trading_pair trade_type price amount,
    (if p (EvStartTrackingOrder order_id trading_pair trade_type price amount)
     then 1 else 0) ≤ nt.
Hypothesis p_lookup : (if p EvGetGatewayInstance then 1 else 0) ≤ ng.
Hypothesis p_submission :
  ∀ gateway chain network connector params order_id,
    (if p (EvExecuteTransaction gateway chain network connector "execute-swap"
             params order_id) then 1 else 0) ≤ nx.
Hypothesis p_log : ∀ r, (if p (EvLog r) then 1 else 0) ≤ nl.
Hypothesis p_failure :
  ∀ order_id trading_pair operation_name e,
    (if p (EvHandleOperationFailure order_id trading_pair operation_name e)
     then 1 else 0) ≤ nf.

Lemma at_most_tx_handler_lookup : at_most p ng (tx_handler env).
Proof.
  intros w.
  destruct (_tx_handler (self w)) as [h|] eqn:Hh.
  - rewrite (tx_handler_stored w h Hh). exists []. rewrite app_nil_r.
    split; [done | simpl; lia].
  - exists [EvGetGatewayInstance]. simpl. split; [|lia].
    unfold tx_handler. run. rewrite Hh.
    by destruct (gateway_instance env (trace w)).
Qed.

Lemma _create_order_try_at_most trade_type order_id base quote amount :
  at_most p (ng + (nx + nl))
    (_create_order_try env trade_type order_id base quote amount).
Proof.
  unfold _create_order_try.
  apply at_most_bind; [apply at_most_tx_handler_lookup|].
  intros [gateway|].
  - apply at_most_then; [apply at_most_get_self|]. intros this.
    apply at_most_then; [apply at_most_lift|]. intros amount_f.
    apply at_most_bind.
    + eapply at_most_weaken; [apply p_submission | apply at_most_ask].
    + intros _. eapply at_most_weaken; [apply p_log | apply at_most_emit].
  - apply (at_most_weaken _ 0); [lia | apply at_most_raise].
Qed.

Lemma _create_order_at_most trade_type order_id trading_pair amount price :
  at_most p (nt + ((ng + (nx + nl)) + nf))
    (_create_order env trade_type order_id trading_pair amount price).
Proof.
  unfold _create_order.
  apply at_most_then; [apply at_most_lift|]. intros quantized_amount.
  apply at_most_then; [apply at_most_lift|]. intros quantized_price.
  apply at_most_then; [apply at_most_lift|]. intros [base quote].
  apply at_most_bind.
  { eapply at_most_weaken; [apply p_tracking | apply at_most_emit]. }
  intros _. apply at_most_try_except.
  - apply _create_order_try_at_most.
  - intros e. apply at_most_except. intros e'.
    eapply at_most_weaken; [apply p_failure | apply at_most_emit].
Qed.

End OrderEvents.

(** X11. One run of [_create_order] starts the tracking at most once, looks
    for the gateway client at most once, submits at most one transaction
    and reports at most one failure; it never asks the gateway for a quote,
    creates no order id and hands nothing to the event loop: a failed
    submission is reported, not repeated. *)
Theorem _create_order_single_submission
    (trade_type : TradeType) (order_id trading_pair : string)
    (amount price : Decimal) (w : World) :
  ∃ evs,
    trace (snd (_create_order env trade_type order_id trading_pair amount
                  price w)) = trace w ++ evs ∧
    count is_start_tracking evs ≤ 1 ∧
    count is_get_gateway_instance evs ≤ 1 ∧
    count is_execute_transaction evs ≤ 1 ∧
    count is_operation_failure evs ≤ 1 ∧
    count is_connector_request evs = 0 ∧
    count is_ensure_future evs = 0.
Proof.
  pose proof (λ p nt ng nx nl nf Ht Hg Hx Hl Hf,
    _create_order_at_most p nt ng nx nl nf Ht Hg Hx Hl Hf trade_type order_id
      trading_pair amount price w) as H.
  destruct (H is_start_tracking 1 0 0 0 0) as (evs & Htrace & Htracking);
    [done..|].
  assert (Hcount : ∀ p n,
    (∃ evs', trace (snd (_create_order env trade_type order_id trading_pair
                           amount price w)) = trace w ++ evs' ∧
             count p evs' ≤ n) →
    count p evs ≤ n).
  { intros p n (evs' & Htrace' & Hn).
    rewrite Htrace in Htrace'. by apply app_inv_head in Htrace' as <-. }
  exists evs. split_and!; [done|..].
  - lia.
  - apply Hcount. by apply (H is_get_gateway_instance 0 1 0 0 0).
  - apply Hcount. by apply (H is_execute_transaction 0 0 1 0 0).
  - apply Hcount. by apply (H is_operation_failure 0 0 0 0 1).
  - apply Nat.le_0_r, Hcount. by apply (H is_connector_request 0 0 0 0 0).
  - apply Nat.le_0_r, Hcount. by apply (H is_ensure_future 0 0 0 0 0).
Qed.

Lemma tx_handler_Returned_stored (w w' : World) (h : obj) :
  tx_handler env w = (Returned (Some h), w') → _tx_handler (self w') = Some h.
Proof.
  destruct (_tx_handler (self w)) as [h0|] eqn:Hh.
  - rewrite (tx_handler_stored w h0 Hh). by intros [= <- <-].
  - unfold tx_handler. run. rewrite Hh.
    destruct (gateway_instance env (trace w)) as [h0|e]; simpl; [|done].
    by intros [= <- <-].
Qed.

(** After the quantizations and the unpacking, [_create_order] is the
    tracking followed by its [try] statement. *)
Lemma _create_order_run trade_type order_id trading_pair base quote amount price
    quantized_amount quantized_price (w : World) :
  quantize_order_amount env trading_pair amount = Returned quantized_amount →
  quantize_order_price env trading_pair price = Returned quantized_price →
  unpack2 (split "-" trading_pair) = Returned (base, quote) →
  _create_order env trade_type order_id trading_pair amount price w =
  try_except
    (_create_order_try env trade_type order_id base quote quantized_amount)
    (except_CancelledError_Exception
       (λ e, _handle_operation_failure order_id trading_pair
               ("submitting " +:+ name trade_type +:+ " swap order") e))
    (log_call (EvStartTrackingOrder order_id trading_pair trade_type
                 quantized_price quantized_amount) w).
Proof.
  intros Hqa Hqp Hpair. unfold _create_order.
  rewrite (run_lift_Returned _ _ _ _ Hqa), (run_lift_Returned _ _ _ _ Hqp).
  by rewrite (run_lift_Returned _ (base, quote) _ _ Hpair).
Qed.

(** X12. When the transaction handler is there and the submission returns,
    [_create_order] returns after the tracking, the submission and the
    record of the submission for the logger, in that order; no failure is
    reported, and the handler it used is the one stored in [_tx_handler]
    for the orders that follow. *)
Theorem _create_order_submitted
    (trade_type : TradeType) (order_id trading_pair base quote : string)
    (amount price quantized_amount quantized_price : Decimal)
    (w w1 : World) (gateway : obj) (amount_f : pyfloat) :
  let tracking :=
    EvStartTrackingOrder order_id trading_pair trade_type quantized_price
      quantized_amount in
  let submission :=
    EvExecuteTransaction gateway (chain (self w)) (network (self w))
      (connector_name (self w)) "execute-swap"
      (execute_swap_params (address (self w)) base quote amount_f trade_type)
      order_id in
  quantize_order_amount env trading_pair amount = Returned quantized_amount →
  quantize_order_price env trading_pair price = Returned quantized_price →
  unpack2 (split "-" trading_pair) = Returned (base, quote) →
  tx_handler env (log_call tracking w) = (Returned (Some gateway), w1) →
  float quantized_amount = Returned amount_f →
  transaction_result env (trace w1) gateway (chain (self w)) (network (self w))
    (connector_name (self w)) "execute-swap"
    (execute_swap_params (address (self w)) base quote amount_f trade_type)
    order_id = Returned tt →
  let r := _create_order env trade_type order_id trading_pair amount price w in
  fst r = Returned tt ∧
  (∃ lookup,
     (lookup = [] ∨ lookup = [EvGetGatewayInstance]) ∧
     trace (snd r) =
       trace w ++ [tracking] ++ lookup ++
         [submission; EvLog (LogSwapOrderSubmitted order_id)]) ∧
  _tx_handler (self (snd r)) = Some gateway.
Proof.
  intros tracking submission Hqa Hqp Hpair Hhandler Hamount Hsubmit r.
  subst r. rewrite (_create_order_run _ _ _ _ _ _ _ _ _ _ Hqa Hqp Hpair).
  fold tracking. unfold try_except.
  rewrite (_create_order_try_run _ _ _ _ _ _ _ _ _ Hhandler Hamount).
  destruct (tx_handler_run (log_call tracking w))
    as (lookup & Hlookup & Htrace & _).
  rewrite Hhandler in Htrace. simpl in Htrace.
  pose proof (tx_handler_Returned_stored _ _ _ Hhandler) as Hstored.
  run. rewrite Hsubmit. simpl. split_and!; [done | | done].
  exists lookup. split; [done|].
  rewrite Htrace. by rewrite <- !app_assoc.
Qed.

(** X13. With a transaction handler stored, [_create_order] does not look
    for the gateway client, and a transaction it submits goes to the stored
    handler. *)
Theorem _create_order_uses_stored_handler
    (trade_type : TradeType) (order_id trading_pair : string)
    (amount price : Decimal) (w : World) (h : obj) :
  _tx_handler (self w) = Some h →
  ∃ evs,
    trace (snd (_create_order env trade_type order_id trading_pair amount
                  price w)) = trace w ++ evs ∧
    count (bypasses_handler h) evs = 0.
Proof.
  intros Hh. unfold _create_order.
  rewrite run_bind. unfold lift at 1.
  destruct (quantize_order_amount env trading_pair amount) as [qa|e];
    [|exists []; by rewrite app_nil_r].
  rewrite run_bind. unfold lift at 1.
  destruct (quantize_order_price env trading_pair price) as [qp|e];
    [|exists []; by rewrite app_nil_r].
  rewrite run_bind. unfold lift at 1.
  destruct (unpack2 (split "-" trading_pair)) as [[base quote]|e];
    [|exists []; by rewrite app_nil_r].
  rewrite run_bind. unfold start_tracking_order, emit at 1.
  set (w1 := log_call _ w).
  set (handler := except_CancelledError_Exception _).
  set (submit :=
    get_self ≫= λ this,
    lift (float qa) ≫= λ amount_f,
    execute_transaction env h (chain this) (network this)
      (connector_name this) "execute-swap"
      (<["side" := PStr (name trade_type)]>
       (<["amount" := PFloat amount_f]>
       (<["quoteToken" := PStr quote]>
       (<["baseToken" := PStr base]>
       (<["walletAddress" := PStr (address this)]> ∅)))))
      order_id ≫= λ _,
    logger (LogSwapOrderSubmitted order_id)).
  assert (Htry : try_except
                   (_create_order_try env trade_type order_id base quote qa)
                   handler w1 = try_except submit handler w1).
  { unfold try_except, _create_order_try.
    rewrite run_bind, (tx_handler_stored w1 h Hh). done. }
  rewrite Htry.
  assert (Hnone : at_most (bypasses_handler h) 0 (try_except submit handler)).
  { apply (at_most_try_except _ 0 0).
    - subst submit.
      apply at_most_then; [apply at_most_get_self|]. intros this.
      apply at_most_then; [apply at_most_lift|]. intros amount_f.
      apply at_most_then.
      + apply at_most_ask_uncounted. simpl. by rewrite N.eqb_refl.
      + intros _. by apply at_most_emit_uncounted.
    - intros e. subst handler. apply at_most_except. intros e'.
      by apply at_most_emit_uncounted. }
  destruct (Hnone w1) as (evs & Htrace & Hcount).
  eexists (_ :: evs). rewrite Htrace. subst w1. simpl.
  rewrite <- app_assoc. split; [done | simpl; lia].
Qed.

Lemma _create_order_starts_tracking trade_type order_id trading_pair base quote
    amount price quantized_amount quantized_price (w : World) :
  quantize_order_amount env trading_pair amount = Returned quantized_amount →
  quantize_order_price env trading_pair price = Returned quantized_price →
  unpack2 (split "-" trading_pair) = Returned (base, quote) →
  ∃ rest,
    trace (snd (_create_order env trade_type order_id trading_pair amount
                  price w)) =
    trace w ++
      EvStartTrackingOrder order_id trading_pair trade_type quantized_price
        quantized_amount :: rest.
Proof.
  intros Hqa Hqp Hpair.
  rewrite (_create_order_run _ _ _ _ _ _ _ _ _ _ Hqa Hqp Hpair).
  destruct (_create_order_try_extends trade_type order_id trading_pair base
              quote quantized_amount (log_call
                (EvStartTrackingOrder order_id trading_pair trade_type
                   quantized_price quantized_amount) w))
    as (rest & Htrace & _).
  exists rest. rewrite Htrace. simpl. by rewrite <- app_assoc.
Qed.

(** X14. The order id that [buy] or [sell] returns is the id of the order
    the event loop then creates: the coroutine they hand over, once run,
    starts the tracking of an order with that id, on the same trading pair,
    with the side of the method and with the quantized amount and price of
    the call. *)
Theorem buy_sell_then_create_order
    (is_buy : bool) (trading_pair base quote : string)
    (amount price quantized_amount quantized_price : Decimal)
    (order_type : OrderType) (kwargs : list (string * pyobj))
    (w : World) (order_id : string) :
  let side := if is_buy then BUY else SELL in
  let call :=
    if is_buy then buy env trading_pair amount order_type price kwargs w
    else sell env trading_pair amount order_type price kwargs w in
  fst call = Returned order_id →
  quantize_order_amount env trading_pair amount = Returned quantized_amount →
  quantize_order_price env trading_pair price = Returned quantized_price →
  unpack2 (split "-" trading_pair) = Returned (base, quote) →
  ∃ coro rest,
    last (trace (snd call)) = Some (EvEnsureFuture coro) ∧
    trace (snd (run_coroutine env coro (snd call))) =
      trace (snd call) ++
        EvStartTrackingOrder order_id trading_pair side quantized_price
          quantized_amount :: rest.
Proof.
  intros side call Hid Hqa Hqp Hpair.
  assert (Hcall : call = place_order env is_buy trading_pair amount price [] w)
    by (subst call; by destruct is_buy).
  rewrite Hcall in *. clear Hcall call.
  rewrite place_order_run in *. fold side in Hid |- *.
  destruct (market_order_id env (trace w) side trading_pair) as [oid|e];
    simpl in Hid; [|done].
  injection Hid as ->.
  exists (CreateOrder side order_id trading_pair amount price).
  destruct (_create_order_starts_tracking side order_id trading_pair base quote
              amount price quantized_amount quantized_price
              {| self := self w;
                 trace := trace w ++
                   [EvCreateMarketOrderId side trading_pair;
                    EvEnsureFuture
                      (CreateOrder side order_id trading_pair amount price)] |}
              Hqa Hqp Hpair) as (rest & Htrace).
  exists rest. split; [|exact Htrace].
  simpl. by rewrite last_app.
Qed.

(** X15. When no handler is stored and [_get_gateway_instance()] raises an
    instance of [Exception], [_create_order] reports the failure of the
    order and returns: the order is tracked, nothing is submitted, and
    [_tx_handler] is still [None]. *)
Theorem _create_order_without_handler
    (trade_type : TradeType) (order_id trading_pair base quote : string)
    (amount price quantized_amount quantized_price : Decimal)
    (w : World) (e : exn) :
  let tracking :=
    EvStartTrackingOrder order_id trading_pair trade_type quantized_price
      quantized_amount in
  quantize_order_amount env trading_pair amount = Returned quantized_amount →
  quantize_order_price env trading_pair price = Returned quantized_price →
  unpack2 (split "-" trading_pair) = Returned (base, quote) →
  _tx_handler (self w) = None →
  gateway_instance env (trace w ++ [tracking]) = Raised e →
  is_Exception e = true → is_CancelledError e = false →
  _create_order env trade_type order_id trading_pair amount price w =
  (Returned tt,
   {| self := self w;
      trace := trace w ++
        [tracking; EvGetGatewayInstance;
         EvHandleOperationFailure order_id trading_pair
           ("submitting " +:+ name trade_type +:+ " swap order") e] |}).
Proof.
  intros tracking Hqa Hqp Hpair Hnone Hgw Hexc Hcancel. subst tracking.
  rewrite (_create_order_run _ _ _ _ _ _ _ _ _ _ Hqa Hqp Hpair).
  unfold try_except, _create_order_try, tx_handler. run.
  rewrite Hnone. simpl. rewrite Hgw. simpl.
  unfold except_CancelledError_Exception. rewrite Hcancel, Hexc.
  run. by rewrite <- !app_assoc.
Qed.

End Properties.

(** * The properties on the sample gateway *)

Import Sample.

Lemma parse_price_response_price_only_witness :
  let with_info : gmap string string :=
    <["price" := "1500"]> (<["info" := "route found"]> ∅) in
  let without_info : gmap string string := {[ "price" := "1500" ]} in
  with_info !! "price" = without_info !! "price" ∧
  fst (parse_price_response "ETH" "USDC" 3%Z BUY with_info true start) =
  fst (parse_price_response "WETH" "DAI" 7%Z SELL without_info false start).
Proof.
  intros with_info without_info.
  assert (H : with_info !! "price" = without_info !! "price")
    by (vm_compute; reflexivity).
  split; [exact H|].
  exact (proj1 (proj2 (proj2
    (parse_price_response_price_only "ETH" "USDC" "WETH" "DAI" 3%Z 7%Z BUY SELL
       with_info without_info true false start start))) H).
Defined.

Lemma get_quote_price_request_fields_witness :
  ∃ payload rest,
    trace (snd (get_quote_price quoting "ETH-USDC" true 3%Z (Some 1%Z)
                  (Some "0xpool") start)) =
    EvGetGatewayInstance ::
    EvConnectorRequest 0%N "get" "uniswap/amm" "quote-swap" payload :: rest ∧
    payload !! "baseToken" = Some (PStr "ETH") ∧
    payload !! "quoteToken" = Some (PStr "USDC") ∧
    payload !! "side" = Some (PStr "BUY") ∧
    is_Some (payload !! "slippagePct") ∧
    is_Some (payload !! "poolAddress").
Proof.
  destruct (get_quote_price_request_fields quoting "ETH" "USDC" true 3%Z
              (Some 1%Z) (Some "0xpool") start AMM 3%Z (Some 1%Z) 0%N
              eq_refl eq_refl eq_refl eq_refl eq_refl eq_refl)
    as (payload & rest & Htrace & _ & _ & Hbase & Hquote & _ & Hside & _
        & Hslippage & _ & Hpool & _).
  exists payload, rest. split_and!; try done.
  - by apply Hslippage.
  - apply Hpool. split; [done | by right].
Defined.

(** The unreachable gateway and the garbled quote: the error of the request,
    and the error of the parse, are logged and the quote is [None]. *)
Lemma get_quote_price_exceptions_witness :
  let e := Exn ConnectionError "Cannot connect to host" in
  let e' := Exn InvalidOperation "ConversionSyntax" in
  let r := get_quote_price unreachable "ETH-USDC" true 3%Z None None start in
  let r' := get_quote_price garbled "ETH-USDC" true 3%Z None None start in
  (is_CancelledError e = false ∧ is_Exception e = true ∧
   fst r = Returned None ∧
   last (trace (snd r)) =
     Some (EvLog (LogErrorGettingQuotePrice "ETH-USDC" BUY 3%Z e))) ∧
  (is_CancelledError e' = false ∧ is_Exception e' = true ∧
   fst r' = Returned None ∧
   last (trace (snd r')) =
     Some (EvLog (LogErrorGettingQuotePrice "ETH-USDC" BUY 3%Z e'))).
Proof.
  intros e e' r r'.
  pose proof (proj1
    (get_quote_price_exceptions unreachable "ETH-USDC" "ETH" "USDC" true 3%Z
       None None start _ e eq_refl
       (get_quote_price_try_request_raises unreachable "ETH" "USDC" BUY 3%Z
          None None start AMM 3%Z None 0%N e
          eq_refl eq_refl eq_refl eq_refl eq_refl))
    eq_refl eq_refl) as Hr.
  pose proof (proj1
    (get_quote_price_exceptions garbled "ETH-USDC" "ETH" "USDC" true 3%Z
       None None start _ e' eq_refl
       (get_quote_price_try_parse_raises garbled "ETH" "USDC" BUY 3%Z
          None None start AMM 3%Z None 0%N {[ "price" := "n/a" ]} "n/a" e'
          eq_refl eq_refl eq_refl eq_refl eq_refl eq_refl eq_refl))
    eq_refl eq_refl) as Hr'.
  fold r in Hr. fold r' in Hr'. rewrite Hr, Hr'.
  split; split_and!; reflexivity.
Defined.

(** C3, as stated, fails: an interrupt from the keyboard during the request
    is an exception other than [CancelledError]; it is not logged and the
    call raises it instead of returning [None]. *)
Lemma get_quote_price_interrupt_propagates :
  let e := Exn KeyboardInterrupt EmptyString in
  let r := get_quote_price interrupted "ETH-USDC" true 3%Z None None start in
  connector_response interrupted [EvGetGatewayInstance] 0%N "get" "uniswap/amm"
    "quote-swap"
    (quote_swap_payload "mainnet" "ETH" "USDC" 3%Z BUY None None AMM) =
    Raised e ∧
  is_CancelledError e = false ∧
  fst r = Raised e ∧
  fst r ≠ Returned None ∧
  count is_log (trace (snd r)) = 0.
Proof.
  intros e r.
  assert (Hr : fst r = Raised e) by (vm_compute; reflexivity).
  split; [reflexivity|]. split; [reflexivity|]. split; [exact Hr|].
  split; [rewrite Hr; discriminate | vm_compute; reflexivity].
Qed.

(** C7, as stated, fails: for a trading pair without a dash the invocation
    makes no request, with the cache empty as well as without the
    decorator. *)
Lemma get_quote_price_no_request :
  let r := get_quote_price quoting "ETHUSDC" true 3%Z None None start in
  let r' := cached_get_quote_price quoting cold "ETHUSDC" true 3%Z None None
              start in
  count is_quote_swap_request (trace (snd r)) = 0 ∧
  count is_connector_request (trace (snd r)) ≠ 1 ∧
  count is_quote_swap_request (trace (snd r')) = 0 ∧
  count is_connector_request (trace (snd r')) ≠ 1.
Proof.
  vm_compute.
  split; [reflexivity|]. split; [discriminate|].
  split; [reflexivity | discriminate].
Qed.

(** The empty cache: one request; the cache that holds a quote: none. *)
Lemma get_quote_price_single_request_witness :
  (cold (trace start) "ETH-USDC" true 3%Z None None = None ∧
   ∃ evs,
     trace (snd (cached_get_quote_price quoting cold "ETH-USDC" true 3%Z None
                   None start)) = evs ∧
     count is_quote_swap_request evs = 1) ∧
  (is_Some (warm (trace start) "ETH-USDC" true 3%Z None None) ∧
   cached_get_quote_price quoting warm "ETH-USDC" true 3%Z None None start =
   (Returned (Some 1500%Z), start)).
Proof.
  split.
  - split; [reflexivity|].
    destruct (get_quote_price_single_request quoting cold "ETH-USDC" true 3%Z
                None None start) as (evs & Htrace & _ & _ & _ & Hone).
    exists evs. split; [exact Htrace|].
    exact (Hone eq_refl "ETH" "USDC" AMM 3%Z None 0%N
             eq_refl eq_refl eq_refl eq_refl eq_refl).
  - assert (Hheld : is_Some (warm (trace start) "ETH-USDC" true 3%Z None None))
      by (by eexists).
    split; [exact Hheld|].
    destruct (get_quote_price_single_request quoting warm "ETH-USDC" true 3%Z
                None None start) as (evs & Htrace & _ & _ & Hnone & _).
    pose proof (Hnone Hheld) as ->.
    reflexivity.
Defined.

Lemma get_quote_price_bad_trading_pair_witness :
  length (split "-" "ETH-USDC-WETH") ≠ 2 ∧
  ∃ msg,
    get_quote_price quoting "ETH-USDC-WETH" false 3%Z None None start =
    (Raised (Exn ValueError msg), start).
Proof.
  assert (H : length (split "-" "ETH-USDC-WETH") ≠ 2)
    by (vm_compute; discriminate).
  split; [exact H|].
  exact (proj1 (get_quote_price_bad_trading_pair quoting "ETH-USDC-WETH" false
                  3%Z None None start H)).
Defined.

Lemma _create_order_submits_witness :
  let tracking := EvStartTrackingOrder "order-1" "ETH-USDC" BUY 1500%Z 3%Z in
  fst (tx_handler quoting (log_call tracking start)) = Returned (Some 1%N) ∧
  ∃ lookup rest params,
    trace (snd (_create_order quoting BUY "order-1" "ETH-USDC" 3%Z 1500%Z
                  start)) =
    [tracking] ++ lookup ++
      [EvExecuteTransaction 1%N "ethereum" "mainnet" "uniswap/amm" "execute-swap"
         params "order-1"] ++ rest ∧
    params !! "amount" = Some (PFloat 3%Z) ∧
    params !! "price" = None.
Proof.
  intros tracking.
  assert (H : fst (tx_handler quoting (log_call tracking start)) =
              Returned (Some 1%N)) by reflexivity.
  split; [exact H|].
  destruct (_create_order_submits quoting BUY "order-1" "ETH" "USDC" 3%Z 1500%Z
              3%Z 1500%Z start 1%N 3%Z
              eq_refl eq_refl eq_refl eq_refl H eq_refl)
    as (lookup & rest & params & Htrace & _ & _ & _ & _ & _ & _ & Hamount & _
        & Hprice).
  exists lookup, rest, params.
  split; [exact Htrace|]. split; [exact Hamount | exact Hprice].
Defined.

Lemma buy_sell_return_order_id_witness :
  fst (buy quoting "ETH-USDC" 3%Z tt 1500%Z [] start) =
    Returned "BUY-ETH-USDC-0" ∧
  snd (buy quoting "ETH-USDC" 3%Z tt 1500%Z [] start) =
    {| self := uniswap;
       trace := [EvCreateMarketOrderId BUY "ETH-USDC";
                 EvEnsureFuture
                   (CreateOrder BUY "BUY-ETH-USDC-0" "ETH-USDC" 3%Z 1500%Z)] |}.
Proof.
  assert (H : fst (buy quoting "ETH-USDC" 3%Z tt 1500%Z [] start) =
              Returned "BUY-ETH-USDC-0") by reflexivity.
  split; [exact H|].
  exact (proj1 (proj2 (proj2
    (buy_sell_return_order_id quoting "ETH-USDC" 3%Z 1500%Z tt [] start true))
    "BUY-ETH-USDC-0" H)).
Defined.

(** The unreachable gateway: the failure of the submission is handled. *)
Lemma _create_order_failure_witness :
  let e := Exn ConnectionError "Cannot connect to host" in
  let r := _create_order unreachable SELL "order-2" "ETH-USDC" 3%Z 1500%Z start in
  is_CancelledError e = false ∧ is_Exception e = true ∧
  fst r = Returned tt ∧
  last (trace (snd r)) =
    Some (EvHandleOperationFailure "order-2" "ETH-USDC"
            "submitting SELL swap order" e).
Proof.
  intros e r.
  pose proof (proj1
    (proj2 (_create_order_failure unreachable SELL "order-2" "ETH-USDC" "ETH"
              "USDC" 3%Z 1500%Z 3%Z 1500%Z start eq_refl eq_refl eq_refl)
       e _
       (_create_order_try_submission_raises unreachable SELL "order-2" "ETH"
          "USDC" 3%Z
          (log_call (EvStartTrackingOrder "order-2" "ETH-USDC" SELL 1500%Z 3%Z)
             start)
          _ 1%N 3%Z e eq_refl eq_refl eq_refl))
    eq_refl eq_refl) as Hr.
  fold r in Hr. rewrite Hr.
  split_and!; reflexivity.
Defined.

(** C6, as stated, fails: an interrupt from the keyboard during the
    submission is an exception other than [CancelledError]; the failure
    handler is not called and [_create_order] raises the exception. *)
Lemma _create_order_interrupt_propagates :
  let e := Exn KeyboardInterrupt EmptyString in
  let r := _create_order interrupted BUY "order-3" "ETH-USDC" 3%Z 1500%Z start in
  transaction_result interrupted
    [EvStartTrackingOrder "order-3" "ETH-USDC" BUY 1500%Z 3%Z;
     EvGetGatewayInstance]
    1%N "ethereum" "mainnet" "uniswap/amm" "execute-swap"
    (execute_swap_params "0xabc" "ETH" "USDC" 3%Z BUY) "order-3" = Raised e ∧
  is_CancelledError e = false ∧
  fst r = Raised e ∧
  count is_operation_failure (trace (snd r)) = 0.
Proof.
  intros e r.
  split; [reflexivity|]. split; [reflexivity|].
  split; vm_compute; reflexivity.
Qed.

Lemma tx_handler_set_once_witness :
  let calls :=
    [Call_get_quote_price "ETH-USDC" true 3%Z None None;
     Call_buy "ETH-USDC" 3%Z tt 1500%Z [];
     Call_create_order BUY "order-1" "ETH-USDC" 3%Z 1500%Z;
     Call_tx_handler] in
  let later := after_all quoting calls (snd (tx_handler quoting start)) in
  _tx_handler (self start) = None ∧
  gateway_instance quoting (trace start) = Returned 0%N ∧
  _tx_handler (self later) = Some 0%N ∧
  tx_handler quoting later = (Returned (Some 0%N), later).
Proof.
  intros calls later.
  split; [reflexivity|]. split; [reflexivity|].
  exact (proj2 (proj2 (proj2
    (tx_handler_set_once quoting start 0%N calls eq_refl eq_refl)))).
Defined.

(** * The further properties on the sample gateway *)

(** A token with a dash of its own: the quote is refused before any call. *)
Lemma get_quote_price_ValueError_iff_dashes_witness :
  occurrences "-" "ETH-USDC-LP" ≠ 1 ∧
  (∃ msg, fst (get_quote_price quoting "ETH-USDC-LP" true 3%Z None None start) =
          Raised (Exn ValueError msg)) ∧
  snd (get_quote_price quoting "ETH-USDC-LP" true 3%Z None None start) = start.
Proof.
  assert (H : occurrences "-" "ETH-USDC-LP" ≠ 1) by (vm_compute; discriminate).
  pose proof (get_quote_price_ValueError_iff_dashes quoting "ETH-USDC-LP" true
                3%Z None None start) as [Hiff Hstate].
  split; [exact H|]. split; [exact (proj2 Hiff H) | exact (Hstate H)].
Defined.

Lemma get_quote_price_escaping_exceptions_witness :
  let e := Exn ValueError "not enough values to unpack (expected 2)" in
  fst (get_quote_price quoting "ETHUSDC" true 3%Z None None start) = Raised e ∧
  length (split "-" "ETHUSDC") ≠ 2 ∧
  snd (get_quote_price quoting "ETHUSDC" true 3%Z None None start) = start.
Proof.
  intros e.
  assert (H : fst (get_quote_price quoting "ETHUSDC" true 3%Z None None start) =
              Raised e) by reflexivity.
  split; [exact H|].
  exact (proj2 (get_quote_price_escaping_exceptions quoting "ETHUSDC" true 3%Z
                  None None start e H eq_refl eq_refl)).
Defined.

Lemma _create_order_early_failure_witness :
  occurrences "-" "ETHUSDC" ≠ 1 ∧
  ∃ msg,
    _create_order quoting BUY "order-4" "ETHUSDC" 3%Z 1500%Z start =
    (Raised (Exn ValueError msg), start).
Proof.
  assert (H : occurrences "-" "ETHUSDC" ≠ 1) by (vm_compute; discriminate).
  split; [exact H|].
  exact (proj2 (proj2 (proj2
    (_create_order_early_failure quoting BUY "order-4" "ETHUSDC" 3%Z 1500%Z
       start) 3%Z eq_refl) 1500%Z eq_refl) H).
Defined.

Lemma place_order_request_args_witness :
  let r := place_order quoting true "ETH-USDC" 3%Z 1500%Z [("gas", "21000")]
             start in
  (∃ msg, fst r = Raised (Exn TypeError msg)) ∧
  trace (snd r) = [EvCreateMarketOrderId BUY "ETH-USDC"].
Proof.
  intros r.
  destruct (place_order_request_args quoting true "ETH-USDC" 3%Z 1500%Z
              [("gas", "21000")] start "BUY-ETH-USDC-0"
              ltac:(discriminate) eq_refl) as [Hraise Hstate].
  fold r in Hraise, Hstate.
  split; [exact Hraise|]. rewrite Hstate. reflexivity.
Defined.

Lemma tx_handler_failure_not_stored_witness :
  let w := log_call (EvCreateMarketOrderId BUY "ETH-USDC") start in
  let failed := tx_handler flaky w in
  (∃ e, fst failed = Raised e) ∧
  _tx_handler (self (snd failed)) = None ∧
  fst (tx_handler flaky (snd failed)) = Returned (Some 2%N).
Proof.
  intros w failed.
  destruct (tx_handler_failure_not_stored flaky w
              (Exn ConnectionError "Cannot connect to host") 2%N
              eq_refl eq_refl) as (Hfailed & Hnone & _ & Hagain).
  fold failed in Hfailed, Hnone, Hagain.
  split; [by eexists|]. split; [exact Hnone|].
  exact (proj1 (Hagain eq_refl)).
Defined.

Lemma calls_keep_attributes_witness :
  let calls :=
    [Call_get_quote_price "ETH-USDC" true 3%Z None None;
     Call_get_order_price "ETH-USDC" false 3%Z;
     Call_buy "ETH-USDC" 3%Z tt 1500%Z [];
     Call_sell "ETH-USDC" 3%Z tt 1500%Z []] in
  forallb (λ c, negb (reads_tx_handler c)) calls = true ∧
  self (after_all quoting calls start) = uniswap.
Proof.
  intros calls.
  assert (H : forallb (λ c, negb (reads_tx_handler c)) calls = true)
    by reflexivity.
  split; [exact H|].
  exact (proj2 (calls_keep_attributes quoting calls start) H).
Defined.

Lemma get_quote_price_returns_price_witness :
  get_quote_price quoting "ETH-USDC" true 3%Z None None start =
  (Returned (Some 1500%Z),
   {| self := uniswap;
      trace := [EvGetGatewayInstance;
                EvConnectorRequest 0%N "get" "uniswap/amm" "quote-swap"
                  (quote_swap_payload "mainnet" "ETH" "USDC" 3%Z BUY None None
                     AMM)] |}).
Proof.
  exact (proj1
    (get_quote_price_returns_price quoting "ETH" "USDC" true 3%Z None None
       start AMM 3%Z None 0%N {[ "price" := "1500" ]}
       eq_refl eq_refl eq_refl eq_refl eq_refl eq_refl eq_refl)
    "1500" 1500%Z eq_refl eq_refl).
Defined.

Lemma get_quote_price_request_well_formed_witness :
  let evs := trace (snd (get_quote_price quoting "ETH-USDC" false 3%Z None None
                           start)) in
  let ev := EvConnectorRequest 0%N "get" "uniswap/amm" "quote-swap"
              (quote_swap_payload "mainnet" "ETH" "USDC" 3%Z SELL None None
                 AMM) in
  ev ∈ evs ∧
  ∃ gateway payload base quote,
    ev = EvConnectorRequest gateway "get" "uniswap/amm" "quote-swap" payload ∧
    "ETH-USDC" = base +:+ "-" +:+ quote ∧
    payload !! "side" = Some (PStr "SELL").
Proof.
  intros evs ev.
  assert (Hin : ev ∈ evs)
    by exact (list_elem_of_further _ _ _ (list_elem_of_here _ _)).
  split; [exact Hin|].
  destruct (get_quote_price_request_well_formed quoting "ETH-USDC" false 3%Z
              None None start evs ev eq_refl Hin eq_refl)
    as (gateway & payload & base & quote & Hev & Hpair & _ & _ & _ & Hside).
  by exists gateway, payload, base, quote.
Defined.

Lemma get_order_price_request_fields_witness :
  ∃ payload rest,
    trace (snd (get_order_price quoting "ETH-USDC" true 3%Z start)) =
    EvGetGatewayInstance ::
    EvConnectorRequest 0%N "get" "uniswap/amm" "quote-swap" payload :: rest ∧
    payload !! "slippagePct" = None ∧
    payload !! "poolAddress" = None.
Proof.
  destruct (get_order_price_request_fields quoting "ETH" "USDC" true 3%Z start
              AMM 3%Z 0%N eq_refl eq_refl eq_refl eq_refl eq_refl)
    as (payload & rest & Htrace & Hdom & _).
  exists payload, rest. split; [exact Htrace|].
  split; apply not_elem_of_dom; rewrite Hdom;
    rewrite !elem_of_union, !elem_of_singleton;
    intros H; repeat destruct H as [H|H]; discriminate.
Defined.

Lemma _create_order_submitted_witness :
  let r := _create_order quoting BUY "order-1" "ETH-USDC" 3%Z 1500%Z start in
  fst r = Returned tt ∧
  _tx_handler (self (snd r)) = Some 1%N ∧
  last (trace (snd r)) = Some (EvLog (LogSwapOrderSubmitted "order-1")).
Proof.
  intros r.
  destruct (_create_order_submitted quoting BUY "order-1" "ETH-USDC" "ETH"
              "USDC" 3%Z 1500%Z 3%Z 1500%Z start _ 1%N 3%Z
              eq_refl eq_refl eq_refl eq_refl eq_refl eq_refl)
    as (Hret & (lookup & _ & Htrace) & Hstored).
  fold r in Hret, Htrace, Hstored.
  split; [exact Hret|]. split; [exact Hstored|].
  rewrite Htrace, !app_assoc. by rewrite last_app.
Defined.

Lemma _create_order_uses_stored_handler_witness :
  _tx_handler (self ready) = Some 7%N ∧
  ∃ evs,
    trace (snd (_create_order quoting SELL "order-5" "ETH-USDC" 3%Z 1500%Z
                  ready)) = evs ∧
    count (bypasses_handler 7%N) evs = 0.
Proof.
  split; [reflexivity|].
  destruct (_create_order_uses_stored_handler quoting SELL "order-5" "ETH-USDC"
              3%Z 1500%Z ready 7%N eq_refl) as (evs & Htrace & Hcount).
  exists evs. split; [exact Htrace | exact Hcount].
Defined.

Lemma buy_sell_then_create_order_witness :
  let call := sell quoting "ETH-USDC" 3%Z tt 1500%Z [] start in
  fst call = Returned "SELL-ETH-USDC-0" ∧
  ∃ coro rest,
    last (trace (snd call)) = Some (EvEnsureFuture coro) ∧
    trace (snd (run_coroutine quoting coro (snd call))) =
      trace (snd call) ++
        EvStartTrackingOrder "SELL-ETH-USDC-0" "ETH-USDC" SELL 1500%Z 3%Z
          :: rest.
Proof.
  intros call.
  assert (H : fst call = Returned "SELL-ETH-USDC-0") by reflexivity.
  split; [exact H|].
  exact (buy_sell_then_create_order quoting false "ETH-USDC" "ETH" "USDC" 3%Z
           1500%Z 3%Z 1500%Z tt [] start "SELL-ETH-USDC-0"
           H eq_refl eq_refl eq_refl).
Defined.

Lemma _create_order_without_handler_witness :
  let e := Exn ConnectionError "Cannot connect to host" in
  _create_order flaky BUY "order-6" "ETH-USDC" 3%Z 1500%Z start =
  (Returned tt,
   {| self := uniswap;
      trace := [EvStartTrackingOrder "order-6" "ETH-USDC" BUY 1500%Z 3%Z;
                EvGetGatewayInstance;
                EvHandleOperationFailure "order-6" "ETH-USDC"
                  "submitting BUY swap order" e] |}).
Proof.
  intros e.
  exact (_create_order_without_handler flaky BUY "order-6" "ETH-USDC" "ETH"
           "USDC" 3%Z 1500%Z 3%Z 1500%Z start e
           eq_refl eq_refl eq_refl eq_refl eq_refl eq_refl eq_refl).
Defined.
